(** * BinDist Python client: envelope decoding, large-file upload and
      checksum-verified download

    A shallow embedding of [src/bindist/base.py], [src/bindist/admin.py] and
    [src/bindist/customer.py].  Python values are a tagged union, dicts are
    finite maps, and every call that leaves the process (the HTTP verbs of
    [requests]) or that the properties count ([hashlib.sha256]) is a node of
    a small free monad, so that a run against an arbitrary network yields
    the ordered trace of what the client did together with its outcome. *)

From Stdlib Require Import ZArith String Ascii List Strings.Byte Floats.SpecFloat.
From stdpp Require Import gmap strings list fin_maps.

#[local] Set Warnings "-register-all".
#[local] Open Scope string_scope.
#[local] Open Scope list_scope.
#[local] Open Scope Z_scope.

(** ** [hashlib.sha256(...).hexdigest()] (FIPS 180-4) *)

Module hashlib.

Definition w32 (x : Z) : Z := x mod 2 ^ 32.
Definition add32 (a b : Z) : Z := w32 (a + b).
Definition not32 (x : Z) : Z := Z.lxor x 4294967295.
Definition rotr (n x : Z) : Z :=
  Z.lor (Z.shiftr x n) (w32 (Z.shiftl x (32 - n))).

Definition Ch (x y z : Z) : Z := Z.lxor (Z.land x y) (Z.land (not32 x) z).
Definition Maj (x y z : Z) : Z :=
  Z.lxor (Z.lxor (Z.land x y) (Z.land x z)) (Z.land y z).
Definition bsig0 (x : Z) : Z := Z.lxor (Z.lxor (rotr 2 x) (rotr 13 x)) (rotr 22 x).
Definition bsig1 (x : Z) : Z := Z.lxor (Z.lxor (rotr 6 x) (rotr 11 x)) (rotr 25 x).
Definition ssig0 (x : Z) : Z := Z.lxor (Z.lxor (rotr 7 x) (rotr 18 x)) (Z.shiftr x 3).
Definition ssig1 (x : Z) : Z := Z.lxor (Z.lxor (rotr 17 x) (rotr 19 x)) (Z.shiftr x 10).

(** The constants are what FIPS 180-4 says they are: the first 32 bits of the
    fractional parts of the cube roots (round constants) and square roots
    (initial state) of the first primes. *)
Definition is_prime (n : Z) : bool :=
  forallb (fun d => negb (n mod Z.of_nat d =? 0)) (seq 2 (Z.to_nat n - 2)).

Definition primes : list Z :=
  List.filter is_prime (map Z.of_nat (seq 2 310)).

(** Largest [r < 2 ^ bits] with [r ^ k <= n], found bit by bit. *)
Fixpoint iroot (k n : Z) (bits : nat) (r : Z) : Z :=
  match bits with
  | O => r
  | S b =>
      let c := r + 2 ^ Z.of_nat b in
      iroot k n b (if c ^ k <=? n then c else r)
  end.

Definition frac_root (k p : Z) : Z := w32 (iroot k (p * 2 ^ (32 * k)) 40 0).

Definition K256 : list Z := map (frac_root 3) primes.

(** The eight working words [a..h]. *)
Record state := State
  { sa : Z; sb : Z; sc : Z; sd : Z; se : Z; sf : Z; sg : Z; sh : Z }.

Definition H0 : state :=
  State (frac_root 2 2) (frac_root 2 3) (frac_root 2 5) (frac_root 2 7)
        (frac_root 2 11) (frac_root 2 13) (frac_root 2 17) (frac_root 2 19).

Definition be_bytes (width : nat) (x : Z) : list Z :=
  map (fun i => Z.shiftr x (8 * Z.of_nat i) mod 256) (rev (seq 0 width)).

Definition pad (msg : list Z) : list Z :=
  let len := Z.of_nat (length msg) in
  let zeros := Z.to_nat ((55 - len) mod 64) in
  msg ++ 128 :: repeat 0 zeros ++ be_bytes 8 (8 * len).

Fixpoint be_words (n : nat) (bs : list Z) : list Z :=
  match n, bs with
  | S n', b0 :: b1 :: b2 :: b3 :: rest =>
      (b0 * 16777216 + b1 * 65536 + b2 * 256 + b3) :: be_words n' rest
  | _, _ => []
  end.

(** Message schedule, most recent word first. *)
Fixpoint extend (n : nat) (wrev : list Z) : list Z :=
  match n with
  | O => wrev
  | S n' =>
      let w := add32 (add32 (ssig1 (nth 1 wrev 0)) (nth 6 wrev 0))
                     (add32 (ssig0 (nth 14 wrev 0)) (nth 15 wrev 0)) in
      extend n' (w :: wrev)
  end.

Definition schedule (block : list Z) : list Z :=
  rev (extend 48 (rev (be_words 16 block))).

Definition round (s : state) (kw : Z * Z) : state :=
  let t1 := add32 (add32 (add32 (sh s) (bsig1 (se s)))
                         (add32 (Ch (se s) (sf s) (sg s)) (fst kw))) (snd kw) in
  let t2 := add32 (bsig0 (sa s)) (Maj (sa s) (sb s) (sc s)) in
  State (add32 t1 t2) (sa s) (sb s) (sc s) (add32 (sd s) t1) (se s) (sf s) (sg s).

Definition compress (h : state) (block : list Z) : state :=
  let s := fold_left round (combine K256 (schedule block)) h in
  State (add32 (sa h) (sa s)) (add32 (sb h) (sb s)) (add32 (sc h) (sc s))
        (add32 (sd h) (sd s)) (add32 (se h) (se s)) (add32 (sf h) (sf s))
        (add32 (sg h) (sg s)) (add32 (sh h) (sh s)).

Fixpoint blocks (n : nat) (bs : list Z) : list (list Z) :=
  match n with
  | O => []
  | S n' => firstn 64 bs :: blocks n' (skipn 64 bs)
  end.

Definition digest_state (msg : list Z) : state :=
  let p := pad msg in
  fold_left compress (blocks (length p / 64)%nat p) H0.

Definition hexchar (n : Z) : ascii :=
  ascii_of_nat (Z.to_nat (if n <? 10 then 48 + n else 87 + n)).

Definition nib (w sh : Z) : ascii := hexchar (Z.shiftr w sh mod 16).

Definition hex8 (w : Z) (tl : string) : string :=
  String (nib w 28) (String (nib w 24) (String (nib w 20) (String (nib w 16)
 (String (nib w 12) (String (nib w 8) (String (nib w 4) (String (nib w 0) tl))))))).

Definition hex_state (s : state) : string :=
  hex8 (sa s) (hex8 (sb s) (hex8 (sc s) (hex8 (sd s)
 (hex8 (se s) (hex8 (sf s) (hex8 (sg s) (hex8 (sh s) EmptyString))))))).

(** [hashlib.sha256(content).hexdigest()]: 64 lower-case hex digits. *)
Definition sha256_hexdigest (content : list byte) : string :=
  hex_state (digest_state (map (fun b => Z.of_N (Byte.to_N b)) content)).

End hashlib.

(** ** Python values, as [json.loads] and the client build them *)

Inductive pyval : Type :=
| PNone
| PBool (b : bool)
| PInt (n : Z)
| PFloat (f : spec_float)
| PStr (s : string)
| PList (l : list pyval)
| PDict (d : gmap string pyval).

(** One piece of an f-string: literal text, or a value formatted by [{...}]. *)
Inductive fpart : Type :=
| Lit (s : string)
| Fmt (v : pyval).

(** Exceptions, by where they are raised.  [RequestException] stands for
    whatever [requests] itself raises while making a call, subclasses
    included (some of them, such as [MissingSchema] and [InvalidURL], are
    [ValueError]s as well); [ValueError] and [Exception_] are the client's
    own [raise] statements, with their f-string message. *)
Inductive exn : Type :=
| AttributeError (attr : string)
| KeyError (key : string)
| TypeError
| ValueError (msg : list fpart)
| Exception_ (msg : list fpart)
| HTTPError (status : Z)
| RequestException (detail : string).

Inductive result (A : Type) : Type :=
| Ok (a : A)
| Err (e : exn).
Arguments Ok {A} a.
Arguments Err {A} e.

#[global] Instance result_ret : MRet result := fun _ a => Ok a.
#[global] Instance result_bind : MBind result := fun _ _ f r =>
  match r with
  | Ok a => f a
  | Err e => Err e
  end.

Module py.

(** [bool(v)] *)
Definition truthy (v : pyval) : bool :=
  match v with
  | PNone => false
  | PBool b => b
  | PInt n => negb (n =? 0)
  | PFloat (S754_zero _) => false
  | PFloat _ => true
  | PStr s => negb (String.eqb s "")
  | PList l => negb (Nat.eqb (length l) 0)
  | PDict d => negb (Nat.eqb (size d) 0)
  end.

(** [v is None] *)
Definition is_none (v : pyval) : bool :=
  match v with
  | PNone => true
  | _ => false
  end.

(** [v.get(key, default)]: only a dict has the method. *)
Definition get (v : pyval) (key : string) (dflt : pyval) : result pyval :=
  match v with
  | PDict d => Ok (default dflt (d !! key))
  | _ => Err (AttributeError "get")
  end.

(** [v[key]] for a string key. *)
Definition getitem (v : pyval) (key : string) : result pyval :=
  match v with
  | PDict d =>
      match d !! key with
      | Some x => Ok x
      | None => Err (KeyError key)
      end
  | _ => Err TypeError
  end.

(** [a != v] where [a] is a [str]: a str equals only an equal str. *)
Definition str_ne (a : string) (v : pyval) : bool :=
  match v with
  | PStr s => negb (String.eqb a s)
  | _ => true
  end.

(** [bool(s)] for [s : str | None]. *)
Definition opt_truthy (s : option string) : bool :=
  match s with
  | Some x => negb (String.eqb x "")
  | None => false
  end.

(** [s.rstrip('/')], computed on the reversed character list. *)
Fixpoint lstrip_slash (cs : list ascii) : list ascii :=
  match cs with
  | c :: rest => if Ascii.eqb c "/" then lstrip_slash rest else cs
  | [] => []
  end.

Definition rstrip_slash (s : string) : string :=
  string_of_list_ascii (rev (lstrip_slash (rev (list_ascii_of_string s)))).

(** [s.lower()], on the letters A to Z of ASCII (header names are ASCII). *)
Definition lower_char (c : ascii) : ascii :=
  let n := nat_of_ascii c in
  if (Nat.leb 65 n && Nat.leb n 90)%bool then ascii_of_nat (n + 32) else c.

Definition lower (s : string) : string :=
  string_of_list_ascii (map lower_char (list_ascii_of_string s)).

(** [sep.join(l)] *)
Fixpoint join (sep : string) (l : list string) : string :=
  match l with
  | [] => ""
  | x :: rest =>
      match rest with
      | [] => x
      | _ :: _ => x +:+ sep +:+ join sep rest
      end
  end.

(** [bool(l)] for [l : list[str] | None]. *)
Definition opt_list_truthy (l : option (list string)) : bool :=
  match l with
  | Some (_ :: _) => true
  | _ => false
  end.

End py.

(** ** The [requests] library, as far as the client uses it *)

Module requests.

(** A received response.  [json] is the outcome of [response.json()]:
    [Some v] when the body decodes to [v], [None] when it raises
    [JSONDecodeError].  These are the two outcomes the client's code tells
    apart; whatever else [json()] may raise ([RecursionError] on deep
    nesting, a plain [ValueError]) is not caught by the client and is not a
    value of this record, so every statement about a [Response] is about a
    reply for which [json()] returns or raises [JSONDecodeError]. *)
Record Response : Type := mkResponse
  { status_code : Z;
    text : string;
    content : list byte;
    json : option pyval }.

Record Session : Type := mkSession
  { headers : gmap string string }.

(** Every way the client reaches the network.  The first four go through
    the client's session; [Put] and [Get] are the module-level
    [requests.put] and [requests.get], which use no session. *)
Inductive call : Type :=
| SessionGet (s : Session) (url : string)
    (params : option (gmap string pyval)) (hdrs : option (gmap string string))
| SessionPost (s : Session) (url : string)
    (body : option (gmap string pyval)) (hdrs : option (gmap string string))
| SessionPatch (s : Session) (url : string)
    (body : option (gmap string pyval)) (hdrs : option (gmap string string))
| SessionDelete (s : Session) (url : string) (hdrs : option (gmap string string))
| Put (url : pyval) (data : list byte) (hdrs : gmap string string)
| Get (url : pyval).

(** What the transport answers: a response, or an exception raised by
    [requests] itself (connection refused, timeout, invalid URL). *)
Inductive reply : Type :=
| Replied (r : Response)
| Failed (detail : string).

(** Header names are compared ignoring case ([CaseInsensitiveDict]). *)
Definition same_name (a b : string) : bool :=
  String.eqb (py.lower a) (py.lower b).

(** Some header of [m] has the name [name], ignoring case. *)
Definition clashes (m : gmap string string) (name : string) : bool :=
  existsb (fun k => same_name k name) (map_to_list m).*1.


(** [old.update(new)] on header dicts: an entry of [new] replaces the entry
    of [old] of the same name ignoring case, and is spelled as in [new].
    Where the names of [new] clash among themselves, requests keeps the one
    inserted last; a map has no insertion order and keeps them all, so
    what is said of the entries of [new] is said for [distinct_names new]. *)
Definition update (old new : gmap string string) : gmap string string :=
  new ∪ filter (fun kv => clashes new kv.1 = false) old.

(** Headers named by the client for a call: the session's own updated with
    the per-call headers for a session call, the explicit ones otherwise. *)
Definition sent_headers (c : call) : gmap string string :=
  match c with
  | SessionGet s _ _ h | SessionPost s _ _ h | SessionPatch s _ _ h
  | SessionDelete s _ h => update (headers s) (default ∅ h)
  | Put _ _ h => h
  | Get _ => ∅
  end.

(** [response.raise_for_status()]: 4xx and 5xx raise [HTTPError]. *)
Definition raise_for_status (r : Response) : result unit :=
  if (400 <=? status_code r) && (status_code r <? 600)
  then Err (HTTPError (status_code r))
  else Ok tt.

End requests.

(** ** Programs, traces and runs *)

Inductive prog (A : Type) : Type :=
| Ret (a : A)
| Raise (e : exn)
| Sha256 (content : list byte) (k : string -> prog A)
| Http (c : requests.call) (k : requests.Response -> prog A).
Arguments Ret {A} a.
Arguments Raise {A} e.
Arguments Sha256 {A} content k.
Arguments Http {A} c k.

Fixpoint prog_bind {A B : Type} (f : A -> prog B) (p : prog A) : prog B :=
  match p with
  | Ret a => f a
  | Raise e => Raise e
  | Sha256 c k => Sha256 c (fun d => prog_bind f (k d))
  | Http c k => Http c (fun r => prog_bind f (k r))
  end.

#[global] Instance prog_ret : MRet prog := fun _ a => Ret a.
#[global] Instance prog_mbind : MBind prog := fun _ _ f p => prog_bind f p.

Definition lift {A : Type} (r : result A) : prog A :=
  match r with
  | Ok a => Ret a
  | Err e => Raise e
  end.

(** [hashlib.sha256(content).hexdigest()] as a step of a program. *)
Definition sha256 (content : list byte) : prog string := Sha256 content Ret.

(** One network call as a step of a program. *)
Definition http (c : requests.call) : prog requests.Response := Http c Ret.

Inductive event : Type :=
| EvHash (content : list byte) (digest : string)
| EvCall (c : requests.call) (r : requests.reply).

(** The network: what it answers to a call, given everything so far. *)
Definition network : Type := list event -> requests.call -> requests.reply.

Inductive outcome (A : Type) : Type :=
| Returned (a : A)
| Raised (e : exn).
Arguments Returned {A} a.
Arguments Raised {A} e.

Fixpoint run {A : Type} (net : network) (tr : list event) (p : prog A)
  : list event * outcome A :=
  match p with
  | Ret a => (tr, Returned a)
  | Raise e => (tr, Raised e)
  | Sha256 c k =>
      let d := hashlib.sha256_hexdigest c in
      run net (tr ++ [EvHash c d]) (k d)
  | Http c k =>
      match net tr c with
      | requests.Replied r => run net (tr ++ [EvCall c (requests.Replied r)]) (k r)
      | requests.Failed e =>
          (tr ++ [EvCall c (requests.Failed e)], Raised (RequestException e))
      end
  end.

(** ** [src/bindist/base.py] *)

Module base.

Record ApiResponse : Type := mkApiResponse
  { success : pyval;
    status_code : Z;
    data : pyval;
    error : pyval;
    meta : pyval;
    raw : pyval }.

(** The envelope synthesized when the body is not JSON. *)
Definition undecodable (body : string) : pyval :=
  PDict {[ "success" := PBool false;
           "error" := PDict {[ "message" := PStr body ]} ]}.

Definition from_response (response : requests.Response) : result ApiResponse :=
  let json_data :=
    match requests.json response with
    | Some v => v
    | None => undecodable (requests.text response)
    end in
  s ← py.get json_data "success" (PBool false);
  d ← py.get json_data "data" PNone;
  e ← py.get json_data "error" PNone;
  m ← py.get json_data "meta" PNone;
  mret (mkApiResponse s (requests.status_code response) d e m json_data).

Record BaseClient : Type := mkBaseClient
  { base_url : string;
    api_key : string;
    session : requests.Session }.

(** [fresh] is the session [requests.Session()] hands out; [update]
    lets the client's two headers win over whatever it already has. *)
Definition __init__ (fresh : requests.Session) (base_url api_key : string)
  : BaseClient :=
  mkBaseClient (py.rstrip_slash base_url) api_key
    (requests.mkSession
       (requests.update (requests.headers fresh)
          {[ "Authorization" := "Bearer " +:+ api_key;
             "Content-Type" := "application/json" ]})).

Definition _url (self : BaseClient) (path : string) : string :=
  base_url self +:+ "/v1" +:+ path.

Definition get (self : BaseClient) (path : string)
    (params : option (gmap string pyval)) (headers : option (gmap string string))
  : prog ApiResponse :=
  response ← http (requests.SessionGet (session self) (_url self path) params headers);
  lift (from_response response).

Definition post (self : BaseClient) (path : string)
    (json : option (gmap string pyval)) (headers : option (gmap string string))
  : prog ApiResponse :=
  response ← http (requests.SessionPost (session self) (_url self path) json headers);
  lift (from_response response).

Definition patch (self : BaseClient) (path : string)
    (json : option (gmap string pyval)) (headers : option (gmap string string))
  : prog ApiResponse :=
  response ← http (requests.SessionPatch (session self) (_url self path) json headers);
  lift (from_response response).

Definition delete (self : BaseClient) (path : string)
    (headers : option (gmap string string))
  : prog ApiResponse :=
  response ← http (requests.SessionDelete (session self) (_url self path) headers);
  lift (from_response response).

(** The URL is whatever the server's JSON held under the key, so it is a
    Python value rather than a checked [str]. *)
Definition put_binary (self : BaseClient) (url : pyval) (data : list byte)
    (content_type : string) : prog requests.Response :=
  http (requests.Put url data {[ "Content-Type" := content_type ]}).

Definition download (self : BaseClient) (url : pyval) : prog (list byte) :=
  response ← http (requests.Get url);
  _ ← lift (requests.raise_for_status response);
  mret (requests.content response).

End base.

(** ** [base64.b64encode(...).decode("utf-8")] (RFC 4648, with padding) *)

Module base64.

Definition alphabet : string :=
  "ABCDEFGHIJKLMNOPQRSTUVWXYZabcdefghijklmnopqrstuvwxyz0123456789+/".

Definition char (i : Z) : ascii :=
  nth (Z.to_nat i) (list_ascii_of_string alphabet) "="%char.

Definition oct (b : byte) : Z := Z.of_N (Byte.to_N b).

Fixpoint encode (bs : list byte) : list ascii :=
  match bs with
  | [] => []
  | [a] =>
      let n := oct a * 65536 in
      [char (n / 262144); char (n / 4096 mod 64); "="%char; "="%char]
  | [a; b] =>
      let n := oct a * 65536 + oct b * 256 in
      [char (n / 262144); char (n / 4096 mod 64); char (n / 64 mod 64); "="%char]
  | a :: b :: c :: rest =>
      let n := oct a * 65536 + oct b * 256 + oct c in
      char (n / 262144) :: char (n / 4096 mod 64) :: char (n / 64 mod 64)
        :: char (n mod 64) :: encode rest
  end.

Definition b64encode (bs : list byte) : string :=
  string_of_list_ascii (encode bs).

End base64.

(** ** [src/bindist/admin.py] *)

Module admin.

Definition octet_stream : string := "application/octet-stream".

Definition get_large_upload_url (self : base.BaseClient)
    (application_id version file_name : string) (file_size : Z)
    (content_type : string) : prog base.ApiResponse :=
  let payload : gmap string pyval :=
    {[ "applicationId" := PStr application_id;
       "version" := PStr version;
       "fileName" := PStr file_name;
       "fileSize" := PInt file_size;
       "contentType" := PStr content_type ]} in
  base.post self "/management/upload/large-url" (Some payload) None.

Definition complete_large_upload (self : base.BaseClient)
    (upload_id : pyval) (application_id version file_name : string)
    (file_size : Z) (checksum : string) (release_notes : option string)
  : prog base.ApiResponse :=
  let payload : gmap string pyval :=
    {[ "uploadId" := upload_id;
       "applicationId" := PStr application_id;
       "version" := PStr version;
       "fileName" := PStr file_name;
       "fileSize" := PInt file_size;
       "checksum" := PStr checksum ]} in
  let payload :=
    if py.opt_truthy release_notes
    then <[ "releaseNotes" := PStr (default "" release_notes) ]> payload
    else payload in
  base.post self "/management/upload/large-complete" (Some payload) None.

(** The result synthesized when storage does not answer 200. *)
Definition s3_failure (s3_response : requests.Response) : base.ApiResponse :=
  base.mkApiResponse
    (PBool false)
    (requests.status_code s3_response)
    PNone
    (PDict {[ "message" := PStr ("S3 upload failed: " +:+ requests.text s3_response) ]})
    PNone
    (PDict {[ "error" := PStr (requests.text s3_response) ]}).

Definition upload_large_file (self : base.BaseClient)
    (application_id version file_name : string) (file_content : list byte)
    (release_notes : option string) : prog base.ApiResponse :=
  let file_size := Z.of_nat (length file_content) in
  checksum ← sha256 file_content;
  url_response ← get_large_upload_url self application_id version file_name
                   file_size octet_stream;
  if negb (py.truthy (base.success url_response))
     || py.is_none (base.data url_response)
  then mret url_response
  else
    upload_id ← lift (py.getitem (base.data url_response) "uploadId");
    upload_url ← lift (py.getitem (base.data url_response) "uploadUrl");
    s3_response ← base.put_binary self upload_url file_content octet_stream;
    if negb (requests.status_code s3_response =? 200)
    then mret (s3_failure s3_response)
    else complete_large_upload self upload_id application_id version file_name
           file_size checksum release_notes.

Definition create_customer (self : base.BaseClient)
    (name parent_customer_id : string) (notes : option string)
  : prog base.ApiResponse :=
  let payload : gmap string pyval := {[ "name" := PStr name ]} in
  let payload :=
    if py.opt_truthy notes
    then <[ "notes" := PStr (default "" notes) ]> payload
    else payload in
  base.post self ("/management/customers/" +:+ parent_customer_id +:+ "/apikeys")
    (Some payload) None.

Definition create_application (self : base.BaseClient)
    (application_id name : string) (customer_ids : list string)
    (description : option string) (tags : option (list string))
  : prog base.ApiResponse :=
  let payload : gmap string pyval :=
    {[ "applicationId" := PStr application_id;
       "name" := PStr name;
       "customerIds" := PList (map PStr customer_ids) ]} in
  let payload :=
    if py.opt_truthy description
    then <[ "description" := PStr (default "" description) ]> payload
    else payload in
  let payload :=
    if py.opt_list_truthy tags
    then <[ "tags" := PList (map PStr (default [] tags)) ]> payload
    else payload in
  base.post self "/management/applications" (Some payload) None.

Definition upload_small_file (self : base.BaseClient)
    (application_id version file_name : string) (file_content : list byte)
    (release_notes : option string) : prog base.ApiResponse :=
  let payload : gmap string pyval :=
    {[ "applicationId" := PStr application_id;
       "version" := PStr version;
       "fileName" := PStr file_name;
       "fileContent" := PStr (base64.b64encode file_content);
       "fileType" := PStr "MAIN" ]} in
  let payload :=
    if py.opt_truthy release_notes
    then <[ "releaseNotes" := PStr (default "" release_notes) ]> payload
    else payload in
  base.post self "/management/upload" (Some payload) None.

Definition update_version (self : base.BaseClient)
    (application_id version : string) (is_enabled is_active : option bool)
    (release_notes minimum_client_version : option string)
  : prog base.ApiResponse :=
  let payload : gmap string pyval := ∅ in
  let payload :=
    match is_enabled with
    | Some b => <[ "isEnabled" := PBool b ]> payload
    | None => payload
    end in
  let payload :=
    match is_active with
    | Some b => <[ "isActive" := PBool b ]> payload
    | None => payload
    end in
  let payload :=
    match release_notes with
    | Some s => <[ "releaseNotes" := PStr s ]> payload
    | None => payload
    end in
  let payload :=
    match minimum_client_version with
    | Some s => <[ "minimumClientVersion" := PStr s ]> payload
    | None => payload
    end in
  base.patch self ("/applications/" +:+ application_id +:+ "/versions/" +:+ version)
    (Some payload) None.

Definition update_customer (self : base.BaseClient)
    (customer_id : string) (name : option string) (is_active : option bool)
    (notes : option string) : prog base.ApiResponse :=
  let payload : gmap string pyval := ∅ in
  let payload :=
    match name with
    | Some s => <[ "name" := PStr s ]> payload
    | None => payload
    end in
  let payload :=
    match is_active with
    | Some b => <[ "isActive" := PBool b ]> payload
    | None => payload
    end in
  let payload :=
    match notes with
    | Some s => <[ "notes" := PStr s ]> payload
    | None => payload
    end in
  base.patch self ("/management/customers/" +:+ customer_id) (Some payload) None.

Definition delete_application (self : base.BaseClient) (application_id : string)
  : prog base.ApiResponse :=
  base.delete self ("/management/applications/" +:+ application_id) None.

Definition list_activity (self : base.BaseClient)
    (activity_type application_id : option string) (page page_size : Z)
  : prog base.ApiResponse :=
  let params : gmap string pyval :=
    {[ "page" := PInt page; "pageSize" := PInt page_size ]} in
  let params :=
    if py.opt_truthy activity_type
    then <[ "type" := PStr (default "" activity_type) ]> params
    else params in
  let params :=
    if py.opt_truthy application_id
    then <[ "applicationId" := PStr (default "" application_id) ]> params
    else params in
  base.get self "/activity" (Some params) None.

Definition list_customers (self : base.BaseClient) (page page_size : Z)
  : prog base.ApiResponse :=
  let params : gmap string pyval :=
    {[ "page" := PInt page; "pageSize" := PInt page_size ]} in
  base.get self "/management/customers" (Some params) None.

End admin.

(** ** [src/bindist/customer.py] *)

Module customer.

Definition get_download_url (self : base.BaseClient)
    (application_id version : string) (file_id : option string)
    (test_channel : bool) : prog base.ApiResponse :=
  let params : gmap string pyval :=
    {[ "applicationId" := PStr application_id; "version" := PStr version ]} in
  let params :=
    if py.opt_truthy file_id
    then <[ "fileId" := PStr (default "" file_id) ]> params
    else params in
  let headers : gmap string string := ∅ in
  let headers :=
    if test_channel then <[ "X-Channel" := "Test" ]> headers else headers in
  base.get self "/downloads/url" (Some params)
    (if negb (Nat.eqb (size headers) 0) then Some headers else None).

Definition download_url_failed (error : pyval) : exn :=
  Exception_ [Lit "Failed to get download URL: "; Fmt error].

Definition checksum_mismatch (expected : pyval) (actual : string) : exn :=
  ValueError [Lit "Checksum mismatch: expected "; Fmt expected;
              Lit ", got "; Fmt (PStr actual)].

Definition download_file (self : base.BaseClient)
    (application_id version : string) (file_id : option string)
    (test_channel verify_checksum : bool)
  : prog (list byte * gmap string pyval) :=
  url_response ← get_download_url self application_id version file_id test_channel;
  if negb (py.truthy (base.success url_response))
     || py.is_none (base.data url_response)
  then Raise (download_url_failed (base.error url_response))
  else
    let data := base.data url_response in
    download_url ← lift (py.getitem data "url");
    expected_checksum ← lift (py.get data "checksum" PNone);
    file_name ← lift (py.get data "fileName" PNone);
    file_size ← lift (py.get data "fileSize" PNone);
    expires_at ← lift (py.get data "expiresAt" PNone);
    let metadata : gmap string pyval :=
      {[ "fileName" := file_name;
         "fileSize" := file_size;
         "checksum" := expected_checksum;
         "expiresAt" := expires_at ]} in
    content ← base.download self download_url;
    if verify_checksum && py.truthy expected_checksum
    then
      actual_checksum ← sha256 content;
      if py.str_ne actual_checksum expected_checksum
      then Raise (checksum_mismatch expected_checksum actual_checksum)
      else mret (content, metadata)
    else mret (content, metadata).

Definition list_applications (self : base.BaseClient)
    (search : option string) (tags : option (list string)) (page page_size : Z)
  : prog base.ApiResponse :=
  let params : gmap string pyval :=
    {[ "page" := PInt page; "pageSize" := PInt page_size ]} in
  let params :=
    if py.opt_truthy search
    then <[ "search" := PStr (default "" search) ]> params
    else params in
  let params :=
    if py.opt_list_truthy tags
    then <[ "tags" := PStr (py.join "," (default [] tags)) ]> params
    else params in
  base.get self "/applications" (Some params) None.

Definition get_application (self : base.BaseClient) (application_id : string)
  : prog base.ApiResponse :=
  base.get self ("/applications/" +:+ application_id) None None.

Definition list_versions (self : base.BaseClient)
    (application_id : string) (changelog : option string) (test_channel : bool)
  : prog base.ApiResponse :=
  let params : gmap string pyval := ∅ in
  let params :=
    if py.opt_truthy changelog
    then <[ "changelog" := PStr (default "" changelog) ]> params
    else params in
  let headers : gmap string string := ∅ in
  let headers :=
    if test_channel then <[ "X-Channel" := "Test" ]> headers else headers in
  base.get self ("/applications/" +:+ application_id +:+ "/versions")
    (if negb (Nat.eqb (size params) 0) then Some params else None)
    (if negb (Nat.eqb (size headers) 0) then Some headers else None).

Definition list_version_files (self : base.BaseClient)
    (application_id version : string) : prog base.ApiResponse :=
  base.get self
    ("/applications/" +:+ application_id +:+ "/versions/" +:+ version +:+ "/files")
    None None.

Definition create_share_link (self : base.BaseClient)
    (application_id version : string) (file_id : option string)
    (expires_minutes : Z) : prog base.ApiResponse :=
  let payload : gmap string pyval :=
    {[ "applicationId" := PStr application_id;
       "version" := PStr version;
       "expiresMinutes" := PInt expires_minutes ]} in
  let payload :=
    if py.opt_truthy file_id
    then <[ "fileId" := PStr (default "" file_id) ]> payload
    else payload in
  base.post self "/downloads/share" (Some payload) None.

Definition get_stats (self : base.BaseClient) (application_id : string)
  : prog base.ApiResponse :=
  base.get self ("/applications/" +:+ application_id +:+ "/stats") None None.

End customer.

(** ** Vocabulary for statements about runs *)

(** What a session call yields to its caller, by the reply it received. *)
Definition decoded (rp : requests.reply) : outcome base.ApiResponse :=
  match rp with
  | requests.Replied r =>
      match base.from_response r with
      | Ok a => Returned a
      | Err e => Raised e
      end
  | requests.Failed e => Raised (RequestException e)
  end.

Definition is_hash (ev : event) : bool :=
  match ev with
  | EvHash _ _ => true
  | EvCall _ _ => false
  end.

(** The call is [requests.put], the raw PUT to storage. *)
Definition is_storage_put (ev : event) : bool :=
  match ev with
  | EvCall (requests.Put _ _ _) _ => true
  | _ => false
  end.

(** The call is the client's POST to the given API path. *)
Definition is_post_to (self : base.BaseClient) (path : string) (ev : event) : bool :=
  match ev with
  | EvCall (requests.SessionPost _ url _ _) _ => String.eqb url (base._url self path)
  | _ => false
  end.

Definition complete_path : string := "/management/upload/large-complete".

(** The metadata dict [download_file] builds from the [data] dict [d]. *)
Definition metadata_of (d : gmap string pyval) : gmap string pyval :=
  {[ "fileName" := default PNone (d !! "fileName");
     "fileSize" := default PNone (d !! "fileSize");
     "checksum" := default PNone (d !! "checksum");
     "expiresAt" := default PNone (d !! "expiresAt") ]}.

(** [n] slashes. *)
Definition slashes (n : nat) : string := string_of_list_ascii (repeat "/"%char n).

(** The steps of the large-file upload, as events of a trace. *)
Inductive step : Type := Hashed | UrlRequested | Stored | Completed.

Definition upload_step (self : base.BaseClient) (ev : event) : option step :=
  match ev with
  | EvHash _ _ => Some Hashed
  | EvCall (requests.SessionPost _ url _ _) _ =>
      if String.eqb url (base._url self "/management/upload/large-url")
      then Some UrlRequested
      else if String.eqb url (base._url self complete_path)
           then Some Completed
           else None
  | EvCall (requests.Put _ _ _) _ => Some Stored
  | EvCall _ _ => None
  end.

(** The call goes through the client's session to a URL under its API root. *)
Definition api_call (self : base.BaseClient) (c : requests.call) : Prop :=
  match c with
  | requests.SessionGet s url _ _ | requests.SessionPost s url _ _
  | requests.SessionPatch s url _ _ | requests.SessionDelete s url _ =>
      s = base.session self
      /\ exists path, url = base.base_url self +:+ "/v1/" +:+ path
  | requests.Put _ _ _ | requests.Get _ => False
  end.

(** The program is one API call, whose decoded reply is its outcome. *)
Definition single_api_call (net : network) (self : base.BaseClient)
    (tr : list event) (p : prog base.ApiResponse) : Prop :=
  exists c, api_call self c
            /\ run net tr p = (tr ++ [EvCall c (net tr c)], decoded (net tr c)).

(** A left inverse of [base64.encode], to state that it loses nothing. *)
Fixpoint b64_index (ch : ascii) (l : list ascii) (i : Z) : Z :=
  match l with
  | [] => 0
  | x :: rest => if Ascii.eqb x ch then i else b64_index ch rest (i + 1)
  end.

Definition b64_sextet (ch : ascii) : Z :=
  b64_index ch (list_ascii_of_string base64.alphabet) 0.

Definition b64_byte (z : Z) : byte := default "000"%byte (Byte.of_N (Z.to_N z)).

Fixpoint b64_decode (cs : list ascii) : list byte :=
  match cs with
  | c0 :: c1 :: c2 :: c3 :: rest =>
      let n := b64_sextet c0 * 262144 + b64_sextet c1 * 4096
               + b64_sextet c2 * 64 + b64_sextet c3 in
      if Ascii.eqb c2 "="
      then [b64_byte (n / 65536)]
      else if Ascii.eqb c3 "="
           then [b64_byte (n / 65536); b64_byte (n / 256 mod 256)]
           else b64_byte (n / 65536) :: b64_byte (n / 256 mod 256)
                  :: b64_byte (n mod 256) :: b64_decode rest
  | _ => []
  end.

(** ** Scenarios: a client and scripted networks *)

Module scenario.

(** A network that answers the n-th call with the n-th scripted reply,
    and refuses the connection once the script is exhausted. *)
Definition calls_so_far (tr : list event) : nat :=
  length (List.filter (fun ev => match ev with EvCall _ _ => true | _ => false end) tr).

Definition scripted (replies : list requests.reply) : network :=
  fun tr _ => nth (calls_so_far tr) replies (requests.Failed "connection refused").

Definition client : base.BaseClient :=
  base.__init__ (requests.mkSession ∅) "https://api.bindist.eu/" "tenant.secret".

Definition body_bytes (s : string) : list byte := list_byte_of_string s.

(** JSON text, written with ['] where the text has a double quote. *)
Definition json_text (s : string) : string :=
  string_of_list_ascii
    (map (fun c => if Ascii.eqb c "'" then "034"%char else c)
       (list_ascii_of_string s)).

(** A response whose body is the JSON text [s], decoding to [v]. *)
Definition json_response (status : Z) (s : string) (v : pyval) : requests.Response :=
  requests.mkResponse status (json_text s) (body_bytes (json_text s)) (Some v).

(** A response whose body [s] is not JSON. *)
Definition text_response (status : Z) (s : string) : requests.Response :=
  requests.mkResponse status s (body_bytes s) None.

Definition html_page : requests.Response :=
  text_response 502 "<html>Bad Gateway</html>".

Definition json_array : requests.Response :=
  json_response 200 "[1, 2]" (PList [PInt 1; PInt 2]).

Definition forbidden : requests.Response :=
  json_response 403 "{'success': false, 'error': {'code': 'FORBIDDEN'}}"
    (PDict {[ "success" := PBool false;
              "error" := PDict {[ "code" := PStr "FORBIDDEN" ]} ]}).

(** HTTP 200 whose envelope nevertheless says failure. *)
Definition rejected : requests.Response :=
  json_response 200 "{'success': false}" (PDict {[ "success" := PBool false ]}).

Definition success_without_data : requests.Response :=
  json_response 200 "{'success': true, 'data': null}"
    (PDict {[ "success" := PBool true; "data" := PNone ]}).

Definition upload_granted : requests.Response :=
  json_response 200
    "{'success': true, 'data': {'uploadId': 'u-1', 'uploadUrl': 'https://s3.example/put'}}"
    (PDict {[ "success" := PBool true;
              "data" := PDict {[ "uploadId" := PStr "u-1";
                                 "uploadUrl" := PStr "https://s3.example/put" ]} ]}).

Definition s3_error : requests.Response :=
  text_response 500 "InternalError".

Definition s3_ok : requests.Response := text_response 200 "".

Definition completed : requests.Response :=
  json_response 200 "{'success': true, 'data': {'version': '1.0.0'}}"
    (PDict {[ "success" := PBool true;
              "data" := PDict {[ "version" := PStr "1.0.0" ]} ]}).

Definition file_content : list byte := body_bytes "abc".

(** Download side: the URL response names a checksum or not. *)
Definition url_no_checksum : requests.Response :=
  json_response 200 "{'success': true, 'data': {'url': 'https://s3.example/get'}}"
    (PDict {[ "success" := PBool true;
              "data" := PDict {[ "url" := PStr "https://s3.example/get" ]} ]}).

Definition url_with_checksum (checksum : string) : requests.Response :=
  json_response 200
    ("{'success': true, 'data': {'url': 'https://s3.example/get', "
     +:+ "'fileName': 'app.bin', 'checksum': '" +:+ checksum +:+ "'}}")
    (PDict {[ "success" := PBool true;
              "data" := PDict {[ "url" := PStr "https://s3.example/get";
                                 "fileName" := PStr "app.bin";
                                 "checksum" := PStr checksum ]} ]}).

Definition s3_not_found : requests.Response := text_response 404 "NoSuchKey".

Definition s3_object : requests.Response :=
  requests.mkResponse 200 "abc" file_content None.

(** Scripts for whole runs. *)
Definition refused : network := scripted [requests.Replied forbidden].

Definition granted_without_data : network :=
  scripted [requests.Replied success_without_data].

Definition storage_down : network :=
  scripted [requests.Replied upload_granted; requests.Replied s3_error].

Definition upload_succeeds : network :=
  scripted [requests.Replied upload_granted; requests.Replied s3_ok;
            requests.Replied completed].

Definition object_missing : network :=
  scripted [requests.Replied url_no_checksum; requests.Replied s3_not_found].

Definition empty_checksum : network :=
  scripted [requests.Replied (url_with_checksum ""); requests.Replied s3_object].

Definition tampered : network :=
  scripted [requests.Replied (url_with_checksum
              "0000000000000000000000000000000000000000000000000000000000000000");
            requests.Replied s3_object].

(** Further responses and scripts. *)
Definition grant_without_url : requests.Response :=
  json_response 200 "{'success': true, 'data': {'uploadId': 'u-1'}}"
    (PDict {[ "success" := PBool true;
              "data" := PDict {[ "uploadId" := PStr "u-1" ]} ]}).

Definition malformed_grant : network :=
  scripted [requests.Replied grant_without_url].

Definition storage_unreachable : network :=
  scripted [requests.Replied upload_granted].

Definition abc_digest : string :=
  "ba7816bf8f01cfea414140de5dae2223b00361a396177a9cb410ff61f20015ad".

Definition verified : network :=
  scripted [requests.Replied (url_with_checksum abc_digest);
            requests.Replied s3_object].

Definition download_unreachable : network :=
  scripted [requests.Replied url_no_checksum].

Definition upload (net : network) : list event * outcome base.ApiResponse :=
  run net [] (admin.upload_large_file client "app" "1.0.0" "app.bin" file_content None).

Definition fetch (net : network)
  : list event * outcome (list byte * gmap string pyval) :=
  run net [] (customer.download_file client "app" "1.0.0" None false true).

End scenario.

Example sha256_constants :
  length hashlib.K256 = 64%nat
  /\ hd 0 hashlib.K256 = 0x428a2f98
  /\ last hashlib.K256 = Some 0xc67178f2
  /\ hashlib.sa hashlib.H0 = 0x6a09e667
  /\ hashlib.sh hashlib.H0 = 0x5be0cd19.
Proof. vm_compute. repeat split. Qed.

Example sha256_empty :
  hashlib.sha256_hexdigest [] =
  "e3b0c44298fc1c149afbf4c8996fb92427ae41e4649b934ca495991b7852b855".
Proof. vm_compute. reflexivity. Qed.

Example sha256_abc :
  hashlib.sha256_hexdigest [x61; x62; x63]%byte =
  "ba7816bf8f01cfea414140de5dae2223b00361a396177a9cb410ff61f20015ad".
Proof. vm_compute. reflexivity. Qed.

(** A 56-byte message, which pads to two blocks. *)
Example sha256_two_blocks :
  hashlib.sha256_hexdigest
    (list_byte_of_string "abcdbcdecdefdefgefghfghighijhijkijkljklmklmnlmnomnopnopq") =
  "248d6a61d20638b8e5c026930c3e6039a33ce45964ff2167f6ecedd419db06c1".
Proof. vm_compute. reflexivity. Qed.


Lemma sha256_hexdigest_length (content : list byte) :
  String.length (hashlib.sha256_hexdigest content) = 64%nat.
Proof. reflexivity. Qed.

Lemma sha256_hexdigest_nonempty (content : list byte) :
  hashlib.sha256_hexdigest content <> "".
Proof.
  intros H. apply (f_equal String.length) in H.
  rewrite sha256_hexdigest_length in H. discriminate H.
Qed.

(** ** Tactics *)

(** Case analysis over the paths of [upload_large_file_run]. *)
Ltac upload_cases ar uid url s3 :=
  match goal with
  | |- context [decoded ?x] => destruct (decoded x) as [ar|?] eqn:?
  end;
  [ destruct (negb (py.truthy (base.success ar)) || py.is_none (base.data ar)) eqn:?;
    [ | destruct (py.getitem (base.data ar) "uploadId") as [uid|?] eqn:?;
        [ destruct (py.getitem (base.data ar) "uploadUrl") as [url|?] eqn:?;
          [ match goal with
            | |- context [?n ?t (requests.Put ?u ?d ?h)] =>
                destruct (n t (requests.Put u d h)) as [s3|?] eqn:?
            end;
            [ destruct (negb (requests.status_code s3 =? 200)) eqn:? | ]
          | ]
        | ] ]
  | ].

(** Which event of an explicit trace a membership hypothesis names. *)
Ltac pick_event :=
  repeat match goal with
    | H : _ \/ _ |- _ => destruct H as [H|H]
    | H : False |- _ => destruct H
    | H : EvHash _ _ = EvCall _ _ |- _ => discriminate H
    | H : EvCall _ _ = EvCall _ _ |- _ => injection H as ? ?; try discriminate
    end.

(** ** Running programs *)

Arguments hashlib.sha256_hexdigest : simpl never.

Lemma run_bind {A B : Type} (net : network) (p : prog A) (f : A -> prog B) tr :
  run net tr (p ≫= f) =
  match run net tr p with
  | (tr', Returned a) => run net tr' (f a)
  | (tr', Raised e) => (tr', Raised e)
  end.
Proof.
  revert tr. induction p as [a|e|c k IH|c k IH]; intros tr; cbn; try reflexivity.
  - apply IH.
  - destruct (net tr c) as [r|d]; [apply IH | reflexivity].
Qed.

Lemma run_lift {A : Type} (net : network) (r : result A) tr :
  run net tr (lift r) = (tr, match r with Ok a => Returned a | Err e => Raised e end).
Proof. destruct r; reflexivity. Qed.

Lemma run_sha256 (net : network) content tr :
  run net tr (sha256 content) =
  (tr ++ [EvHash content (hashlib.sha256_hexdigest content)],
   Returned (hashlib.sha256_hexdigest content)).
Proof. reflexivity. Qed.

Lemma run_http (net : network) c tr :
  run net tr (http c) =
  (tr ++ [EvCall c (net tr c)],
   match net tr c with
   | requests.Replied r => Returned r
   | requests.Failed e => Raised (RequestException e)
   end).
Proof. cbn. destruct (net tr c); reflexivity. Qed.

Lemma run_session (net : network) c tr :
  run net tr (response ← http c; lift (base.from_response response)) =
  (tr ++ [EvCall c (net tr c)], decoded (net tr c)).
Proof.
  rewrite run_bind, run_http. unfold decoded.
  destruct (net tr c) as [r|d]; [|reflexivity].
  rewrite run_lift. reflexivity.
Qed.

Lemma run_post (net : network) self path json headers tr :
  run net tr (base.post self path json headers) =
  let c := requests.SessionPost (base.session self) (base._url self path) json headers in
  (tr ++ [EvCall c (net tr c)], decoded (net tr c)).
Proof. apply run_session. Qed.

Lemma run_get (net : network) self path params headers tr :
  run net tr (base.get self path params headers) =
  let c := requests.SessionGet (base.session self) (base._url self path) params headers in
  (tr ++ [EvCall c (net tr c)], decoded (net tr c)).
Proof. apply run_session. Qed.

Lemma run_download (net : network) self url tr :
  run net tr (base.download self url) =
  (tr ++ [EvCall (requests.Get url) (net tr (requests.Get url))],
   match net tr (requests.Get url) with
   | requests.Replied r =>
       if (400 <=? requests.status_code r) && (requests.status_code r <? 600)
       then Raised (HTTPError (requests.status_code r))
       else Returned (requests.content r)
   | requests.Failed e => Raised (RequestException e)
   end).
Proof.
  unfold base.download. rewrite run_bind, run_http.
  destruct (net tr (requests.Get url)) as [r|e]; [|reflexivity].
  rewrite run_bind, run_lift. unfold requests.raise_for_status.
  destruct ((400 <=? requests.status_code r) && (requests.status_code r <? 600));
    reflexivity.
Qed.

Lemma run_get_download_url (net : network) self app_id ver fid tc tr :
  exists c, run net tr (customer.get_download_url self app_id ver fid tc)
            = (tr ++ [EvCall c (net tr c)], decoded (net tr c)).
Proof. unfold customer.get_download_url. rewrite run_get. eexists. reflexivity. Qed.

Lemma append_inj_l (s a b : string) : s +:+ a = s +:+ b -> a = b.
Proof.
  induction s as [|c s IH]; cbn; intros H; [assumption | injection H; auto].
Qed.

Lemma url_eqb (self : base.BaseClient) (p q : string) :
  String.eqb (base._url self p) (base._url self q) = String.eqb p q.
Proof.
  unfold base._url.
  destruct (String.eqb_spec p q) as [->|Hne].
  - apply String.eqb_refl.
  - apply String.eqb_neq. intros H. apply Hne.
    apply append_inj_l in H. apply append_inj_l in H. exact H.
Qed.

(** ** The envelope decoder *)

Lemma from_response_not_json (r : requests.Response) :
  requests.json r = None ->
  base.from_response r =
  Ok (base.mkApiResponse (PBool false) (requests.status_code r) PNone
        (PDict {[ "message" := PStr (requests.text r) ]}) PNone
        (base.undecodable (requests.text r))).
Proof.
  intros Hj. unfold base.from_response. rewrite Hj.
  generalize (requests.text r). intros body. reflexivity.
Qed.

(** C5 (as the code has it): every response whose body is not JSON decodes,
    without raising, to success false, the transport status, no data, no
    meta and error [{message: body text}]; raw is the whole synthesized
    envelope [{success: False, error: {message: body text}}], not
    [{error: body text}]. *)
Theorem from_response_undecodable (r : requests.Response) :
  requests.json r = None ->
  base.from_response r =
  Ok (base.mkApiResponse (PBool false) (requests.status_code r) PNone
        (PDict {[ "message" := PStr (requests.text r) ]}) PNone
        (PDict {[ "success" := PBool false;
                  "error" := PDict {[ "message" := PStr (requests.text r) ]} ]})).
Proof. intros Hj. rewrite (from_response_not_json r Hj). reflexivity. Qed.

Lemma from_response_undecodable_witness :
  base.from_response scenario.html_page =
  Ok (base.mkApiResponse (PBool false) 502 PNone
        (PDict {[ "message" := PStr "<html>Bad Gateway</html>" ]}) PNone
        (PDict {[ "success" := PBool false;
                  "error" := PDict {[ "message" := PStr "<html>Bad Gateway</html>" ]} ]})).
Proof. apply (from_response_undecodable scenario.html_page). reflexivity. Defined.

(** C5 as stated fails on an HTML error page: no result of the decoder has
    raw equal to [{error: body text}]. *)
Lemma undecodable_raw_is_the_envelope :
  requests.json scenario.html_page = None
  /\ ~ (exists ar,
          base.from_response scenario.html_page = Ok ar
          /\ base.success ar = PBool false
          /\ base.data ar = PNone
          /\ base.meta ar = PNone
          /\ base.error ar = PDict {[ "message" := PStr (requests.text scenario.html_page) ]}
          /\ base.raw ar = PDict {[ "error" := PStr (requests.text scenario.html_page) ]}).
Proof.
  split; [reflexivity|].
  intros (ar & Har & _ & _ & _ & _ & Hraw).
  rewrite (from_response_not_json scenario.html_page eq_refl) in Har.
  injection Har as <-. cbn [base.raw] in Hraw.
  apply (f_equal (fun v => py.get v "success" PNone)) in Hraw.
  vm_compute in Hraw. discriminate Hraw.
Qed.

(** C6 (as the code has it): every response whose body decodes to a JSON
    object yields, without raising, an ApiResult whose success, data, error
    and meta are the values under those keys (success defaulting to False,
    the others to None) and whose raw is the whole decoded object. *)
Theorem from_response_object (r : requests.Response) (d : gmap string pyval) :
  requests.json r = Some (PDict d) ->
  base.from_response r =
  Ok (base.mkApiResponse
        (default (PBool false) (d !! "success"))
        (requests.status_code r)
        (default PNone (d !! "data"))
        (default PNone (d !! "error"))
        (default PNone (d !! "meta"))
        (PDict d)).
Proof. intros Hj. unfold base.from_response. rewrite Hj. reflexivity. Qed.

Lemma from_response_object_witness :
  base.from_response scenario.forbidden =
  Ok (base.mkApiResponse (PBool false) 403 PNone
        (PDict {[ "code" := PStr "FORBIDDEN" ]}) PNone
        (PDict {[ "success" := PBool false;
                  "error" := PDict {[ "code" := PStr "FORBIDDEN" ]} ]})).
Proof.
  exact (from_response_object scenario.forbidden
           {[ "success" := PBool false;
              "error" := PDict {[ "code" := PStr "FORBIDDEN" ]} ]} eq_refl).
Defined.

(** C6 as stated fails on a body that is a JSON array: the decoder raises
    [AttributeError] instead of returning an ApiResult. *)
Lemma json_array_body_raises :
  requests.json scenario.json_array = Some (PList [PInt 1; PInt 2])
  /\ base.from_response scenario.json_array = Err (AttributeError "get")
  /\ ~ (exists ar, base.from_response scenario.json_array = Ok ar
                   /\ base.raw ar = PList [PInt 1; PInt 2]).
Proof.
  split; [reflexivity|]. split; [reflexivity|].
  intros (ar & Har & _). discriminate Har.
Qed.

(** C7: every ApiResult the decoder produces has as raw the decoded body, or
    the synthesized envelope when the body is not JSON; its success is the
    value under raw's ['success'] key, False when the key is absent or the
    body undecodable; and its status code is the transport's, whatever the
    success flag says. *)
Theorem from_response_invariant (r : requests.Response) (ar : base.ApiResponse) :
  base.from_response r = Ok ar ->
  base.raw ar =
    match requests.json r with
    | Some v => v
    | None => PDict {[ "success" := PBool false;
                       "error" := PDict {[ "message" := PStr (requests.text r) ]} ]}
    end
  /\ py.get (base.raw ar) "success" (PBool false) = Ok (base.success ar)
  /\ (forall d, base.raw ar = PDict d -> d !! "success" = None ->
                base.success ar = PBool false)
  /\ (requests.json r = None -> base.success ar = PBool false)
  /\ base.status_code ar = requests.status_code r.
Proof.
  intros H. destruct (requests.json r) as [v|] eqn:Hj.
  - unfold base.from_response in H. rewrite Hj in H.
    destruct v as [ | | | | | |d]; try discriminate H.
    injection H as <-. cbn.
    repeat split; try reflexivity; try discriminate.
    intros d' [= <-] ->. reflexivity.
  - rewrite (from_response_not_json r Hj) in H. injection H as <-. cbn.
    repeat split; reflexivity.
Qed.

Lemma from_response_invariant_witness :
  let ar := base.mkApiResponse (PBool false) 200 PNone PNone PNone
              (PDict {[ "success" := PBool false ]}) in
  base.raw ar = PDict {[ "success" := PBool false ]}
  /\ py.get (base.raw ar) "success" (PBool false) = Ok (PBool false)
  /\ (forall d, base.raw ar = PDict d -> d !! "success" = None ->
                base.success ar = PBool false)
  /\ (requests.json scenario.rejected = None -> base.success ar = PBool false)
  /\ base.status_code ar = 200.
Proof.
  exact (from_response_invariant scenario.rejected
           (base.mkApiResponse (PBool false) 200 PNone PNone PNone
              (PDict {[ "success" := PBool false ]})) eq_refl).
Defined.

(** ** Transport: which calls carry the bearer token *)


Lemma clashes_true (m : gmap string string) (name : string) :
  requests.clashes m name = true <->
  exists k v, m !! k = Some v /\ requests.same_name k name = true.
Proof.
  unfold requests.clashes. rewrite existsb_exists. split.
  - intros (k & Hin & Hk). apply list_elem_of_In, list_elem_of_fmap in Hin.
    destruct Hin as ([k' v] & -> & Hin). apply elem_of_map_to_list in Hin.
    exists k', v. split; assumption.
  - intros (k & v & Hm & Hk). exists k. split; [|exact Hk].
    apply list_elem_of_In, list_elem_of_fmap. exists (k, v).
    split; [reflexivity|]. apply elem_of_map_to_list. exact Hm.
Qed.





Lemma same_name_trans (a b c : string) :
  requests.same_name a b = true -> requests.same_name b c = true ->
  requests.same_name a c = true.
Proof.
  unfold requests.same_name. rewrite !String.eqb_eq. congruence.
Qed.

Lemma same_name_sym (a b : string) :
  requests.same_name a b = requests.same_name b a.
Proof. unfold requests.same_name. apply String.eqb_sym. Qed.

Lemma clashes_same_name (m : gmap string string) (a b : string) :
  requests.same_name a b = true -> requests.clashes m a = requests.clashes m b.
Proof.
  intros Hab.
  destruct (requests.clashes m b) eqn:Hb.
  - apply clashes_true in Hb. destruct Hb as (k & v & Hm & Hk).
    apply clashes_true. exists k, v. split; [exact Hm|].
    rewrite same_name_sym in Hab. eapply same_name_trans; eassumption.
  - destruct (requests.clashes m a) eqn:Ha; [|reflexivity].
    apply clashes_true in Ha. destruct Ha as (k & v & Hm & Hk).
    assert (requests.clashes m b = true).
    { apply clashes_true. exists k, v. split; [exact Hm|].
      eapply same_name_trans; eassumption. }
    congruence.
Qed.





Example lower_mixed_case : py.lower "X-Channel: AZaz09[@`{" = "x-channel: azaz09[@`{".
Proof. vm_compute. reflexivity. Qed.

(** ** The large-file upload, path by path *)

(** Symbolic execution of [upload_large_file] against any network. *)
Lemma upload_large_file_run
    (net : network) (self : base.BaseClient) (app_id ver fn : string)
    (C : list byte) (rn : option string) :
  let digest := hashlib.sha256_hexdigest C in
  let size := Z.of_nat (length C) in
  let tr0 := [EvHash C digest] in
  let c1 :=
    requests.SessionPost (base.session self)
      (base._url self "/management/upload/large-url")
      (Some {[ "applicationId" := PStr app_id; "version" := PStr ver;
               "fileName" := PStr fn; "fileSize" := PInt size;
               "contentType" := PStr admin.octet_stream ]})
      None in
  let tr1 := tr0 ++ [EvCall c1 (net tr0 c1)] in
  let c2 (url : pyval) :=
    requests.Put url C {[ "Content-Type" := admin.octet_stream ]} in
  let tr2 (url : pyval) := tr1 ++ [EvCall (c2 url) (net tr1 (c2 url))] in
  let c3 (uid : pyval) :=
    requests.SessionPost (base.session self)
      (base._url self complete_path)
      (Some (let payload : gmap string pyval :=
               {[ "uploadId" := uid; "applicationId" := PStr app_id;
                  "version" := PStr ver; "fileName" := PStr fn;
                  "fileSize" := PInt size; "checksum" := PStr digest ]} in
             if py.opt_truthy rn
             then <[ "releaseNotes" := PStr (default "" rn) ]> payload
             else payload))
      None in
  run net [] (admin.upload_large_file self app_id ver fn C rn) =
  match decoded (net tr0 c1) with
  | Raised e => (tr1, Raised e)
  | Returned ar =>
      if negb (py.truthy (base.success ar)) || py.is_none (base.data ar)
      then (tr1, Returned ar)
      else
        match py.getitem (base.data ar) "uploadId" with
        | Err e => (tr1, Raised e)
        | Ok uid =>
            match py.getitem (base.data ar) "uploadUrl" with
            | Err e => (tr1, Raised e)
            | Ok url =>
                match net tr1 (c2 url) with
                | requests.Failed e => (tr2 url, Raised (RequestException e))
                | requests.Replied s3 =>
                    if negb (requests.status_code s3 =? 200)
                    then (tr2 url, Returned (admin.s3_failure s3))
                    else (tr2 url ++ [EvCall (c3 uid) (net (tr2 url) (c3 uid))],
                          decoded (net (tr2 url) (c3 uid)))
                end
            end
        end
  end.
Proof.
  intros digest size tr0 c1 tr1 c2 tr2 c3.
  unfold admin.upload_large_file.
  rewrite run_bind, run_sha256. cbn [List.app].
  rewrite run_bind. unfold admin.get_large_upload_url. rewrite run_post.
  cbn zeta. fold size digest c1 tr0 tr1.
  destruct (decoded (net tr0 c1)) as [ar|e]; [|reflexivity].
  destruct (negb (py.truthy (base.success ar)) || py.is_none (base.data ar));
    [reflexivity|].
  rewrite run_bind, run_lift.
  destruct (py.getitem (base.data ar) "uploadId") as [uid|e]; [|reflexivity].
  rewrite run_bind, run_lift.
  destruct (py.getitem (base.data ar) "uploadUrl") as [url|e]; [|reflexivity].
  rewrite run_bind. unfold base.put_binary. rewrite run_http.
  fold (c2 url). fold (tr2 url).
  destruct (net tr1 (c2 url)) as [s3|e]; [|reflexivity].
  destruct (negb (requests.status_code s3 =? 200)); [reflexivity|].
  unfold admin.complete_large_upload. rewrite run_post. reflexivity.
Qed.

Lemma and_snoc (A B C D E : Prop) :
  A /\ B /\ C /\ D -> E -> A /\ B /\ C /\ D /\ E.
Proof. tauto. Qed.

(** C1: for every content [C] and every network, the trace of
    [upload_large_file] starts with the one and only SHA-256 computation,
    over [C], ahead of every network call; the second event is the POST that
    requests the upload URL, with [fileSize = len(C)]; every POST the run
    makes carries [fileSize = len(C)], and a POST to the completion endpoint
    carries as [checksum] that same digest of [C].  The completion call is
    made: when the URL response is a success that holds ['uploadId'] and
    ['uploadUrl'], the next event is the storage PUT of [C] to that URL, and
    once a storage PUT has been answered with status 200 the last event of
    the run is the POST to the completion endpoint, whose payload holds the
    digest computed at the start and [len(C)]. *)
Theorem upload_checksum_computed_once
    (net : network) self app_id ver fn (C : list byte) rn :
  let digest := hashlib.sha256_hexdigest C in
  let size := Z.of_nat (length C) in
  let tr := (run net [] (admin.upload_large_file self app_id ver fn C rn)).1 in
  (exists rest, tr = EvHash C digest :: rest
                /\ Forall (fun ev => is_hash ev = false) rest)
  /\ (forall s url body h rp,
        In (EvCall (requests.SessionPost s url body h) rp) tr ->
        exists payload : gmap string pyval,
          body = Some payload
          /\ payload !! "fileSize" = Some (PInt size)
          /\ (url = base._url self complete_path ->
              payload !! "checksum" = Some (PStr digest)))
  /\ (exists (request : gmap string pyval) rp rest,
        tr = EvHash C digest
             :: EvCall (requests.SessionPost (base.session self)
                          (base._url self "/management/upload/large-url")
                          (Some request) None) rp
             :: rest
        /\ request !! "fileSize" = Some (PInt size))
  /\ (forall url data hdrs s3,
        In (EvCall (requests.Put url data hdrs) (requests.Replied s3)) tr ->
        requests.status_code s3 = 200 ->
        exists (payload : gmap string pyval) rp,
          last tr
          = Some (EvCall (requests.SessionPost (base.session self)
                            (base._url self complete_path) (Some payload) None) rp)
          /\ payload !! "checksum" = Some (PStr digest)
          /\ payload !! "fileSize" = Some (PInt size))
  /\ (forall tr1 ar uid url,
        run net [EvHash C digest]
          (admin.get_large_upload_url self app_id ver fn size admin.octet_stream)
        = (tr1, Returned ar) ->
        py.truthy (base.success ar) = true ->
        py.getitem (base.data ar) "uploadId" = Ok uid ->
        py.getitem (base.data ar) "uploadUrl" = Ok url ->
        exists rp rest,
          tr = tr1 ++ EvCall (requests.Put url C
                                {[ "Content-Type" := "application/octet-stream" ]})
                        rp :: rest).
Proof.
  intros digest size tr. subst tr digest size.
  rewrite (upload_large_file_run net self app_id ver fn C rn); cbv zeta.
  generalize (hashlib.sha256_hexdigest C) as digest. intros digest.
  apply and_snoc.
  - upload_cases ar uid u r2; cbn [fst List.app].
    all: split; [eexists; split; [reflexivity | repeat constructor] | ].
    all: split;
      [ intros s url body h rp Hin; cbn in Hin; pick_event; subst;
        (eexists; split; [reflexivity|]);
        try (split; [reflexivity|]; intros Hurl; exfalso;
             apply append_inj_l, append_inj_l in Hurl; discriminate Hurl);
        destruct (py.opt_truthy rn); split; try reflexivity; intros _; reflexivity
      | ].
    all: split; [do 3 eexists; split; reflexivity | ].
    all: intros url data hdrs s3 Hin H200; cbn in Hin; pick_event; subst.
    + match goal with
      | H : negb _ = true |- _ => rewrite H200 in H; discriminate H
      end.
    + do 2 eexists. split; [reflexivity|].
      destruct (py.opt_truthy rn); split; reflexivity.
  - intros tr1 ar uid url Hrun Hs Hid Hurl.
    unfold admin.get_large_upload_url in Hrun. rewrite run_post in Hrun.
    cbv zeta in Hrun. injection Hrun as <- Hdec. rewrite Hdec.
    rewrite Hs, Hid, Hurl. cbn [negb orb].
    replace (py.is_none (base.data ar)) with false
      by (destruct (base.data ar); [discriminate Hid | reflexivity ..]).
    destruct (net _ (requests.Put url C _)) as [s3|e];
      [destruct (negb (requests.status_code s3 =? 200))|]; cbn [fst];
      rewrite <- ?List.app_assoc; do 2 eexists; reflexivity.
Qed.

Lemma upload_checksum_computed_once_witness :
  exists (payload : gmap string pyval) rp,
    last (scenario.upload scenario.upload_succeeds).1
    = Some (EvCall (requests.SessionPost (base.session scenario.client)
                      "https://api.bindist.eu/v1/management/upload/large-complete"
                      (Some payload) None) rp)
    /\ payload !! "checksum"
       = Some (PStr "ba7816bf8f01cfea414140de5dae2223b00361a396177a9cb410ff61f20015ad")
    /\ payload !! "fileSize" = Some (PInt 3).
Proof.
  rewrite <- sha256_abc.
  refine (proj1 (proj2 (proj2 (proj2
            (upload_checksum_computed_once scenario.upload_succeeds
               scenario.client "app" "1.0.0" "app.bin" scenario.file_content None))))
          (PStr "https://s3.example/put") scenario.file_content
          {[ "Content-Type" := "application/octet-stream" ]} scenario.s3_ok _ _).
  - vm_compute. right. right. left. reflexivity.
  - reflexivity.
Defined.

(** C2: when the request-upload-URL call hands back an ApiResult whose
    success flag is falsy, [upload_large_file] returns that very ApiResult
    and its trace holds neither a storage PUT nor a completion POST. *)
Theorem upload_aborts_on_unsuccessful_url_response
    (net : network) self app_id ver fn (C : list byte) rn tr1 ar :
  run net [EvHash C (hashlib.sha256_hexdigest C)]
      (admin.get_large_upload_url self app_id ver fn (Z.of_nat (length C))
         admin.octet_stream) = (tr1, Returned ar) ->
  py.truthy (base.success ar) = false ->
  run net [] (admin.upload_large_file self app_id ver fn C rn) = (tr1, Returned ar)
  /\ Forall (fun ev => is_storage_put ev = false
                       /\ is_post_to self complete_path ev = false) tr1.
Proof.
  intros Hurl Hs. split.
  - unfold admin.upload_large_file.
    rewrite run_bind, run_sha256. cbn [List.app].
    rewrite run_bind, Hurl, Hs. reflexivity.
  - unfold admin.get_large_upload_url in Hurl. rewrite run_post in Hurl.
    cbn zeta in Hurl. injection Hurl as <- _.
    repeat constructor. cbn. rewrite url_eqb. reflexivity.
Qed.

Lemma upload_aborts_on_unsuccessful_url_response_witness :
  scenario.upload scenario.refused =
  ([EvHash scenario.file_content
      "ba7816bf8f01cfea414140de5dae2223b00361a396177a9cb410ff61f20015ad";
    EvCall
      (requests.SessionPost (base.session scenario.client)
         "https://api.bindist.eu/v1/management/upload/large-url"
         (Some {[ "applicationId" := PStr "app"; "version" := PStr "1.0.0";
                  "fileName" := PStr "app.bin"; "fileSize" := PInt 3;
                  "contentType" := PStr "application/octet-stream" ]})
         None)
      (requests.Replied scenario.forbidden)],
   Returned
     (base.mkApiResponse (PBool false) 403 PNone
        (PDict {[ "code" := PStr "FORBIDDEN" ]}) PNone
        (PDict {[ "success" := PBool false;
                  "error" := PDict {[ "code" := PStr "FORBIDDEN" ]} ]}))).
Proof.
  refine (proj1 (upload_aborts_on_unsuccessful_url_response
                   scenario.refused scenario.client "app" "1.0.0" "app.bin"
                   scenario.file_content None _ _ _ _)).
  - vm_compute. reflexivity.
  - reflexivity.
Defined.

(** C3: in every run of [upload_large_file] whose storage PUT is answered
    with a status other than 200, the completion endpoint is never called
    and the result is the synthesized failure: success false, the storage
    status, no data, no meta, the message ["S3 upload failed: "] followed by
    the storage body, and raw [{error: body}]. *)
Theorem upload_storage_failure
    (net : network) self app_id ver fn (C : list byte) rn tr out url data hdrs s3 :
  run net [] (admin.upload_large_file self app_id ver fn C rn) = (tr, out) ->
  In (EvCall (requests.Put url data hdrs) (requests.Replied s3)) tr ->
  requests.status_code s3 <> 200 ->
  out = Returned
          (base.mkApiResponse (PBool false) (requests.status_code s3) PNone
             (PDict {[ "message" := PStr ("S3 upload failed: " +:+ requests.text s3) ]})
             PNone
             (PDict {[ "error" := PStr (requests.text s3) ]}))
  /\ Forall (fun ev => is_post_to self complete_path ev = false) tr.
Proof.
  intros Hrun Hin Hst. revert Hrun.
  rewrite (upload_large_file_run net self app_id ver fn C rn); cbv zeta.
  upload_cases ar uid u r2; intros [= <- <-]; cbn in Hin; pick_event; subst.
  - split; [reflexivity|].
    repeat constructor. cbn. rewrite url_eqb. reflexivity.
  - match goal with
    | H : negb _ = false |- _ => apply negb_false_iff, Z.eqb_eq in H
    end.
    contradiction.
Qed.

Lemma upload_storage_failure_witness :
  (scenario.upload scenario.storage_down).2 =
  Returned
    (base.mkApiResponse (PBool false) 500 PNone
       (PDict {[ "message" := PStr "S3 upload failed: InternalError" ]})
       PNone
       (PDict {[ "error" := PStr "InternalError" ]}))
  /\ Forall (fun ev => is_post_to scenario.client complete_path ev = false)
       (scenario.upload scenario.storage_down).1.
Proof.
  refine (upload_storage_failure
            scenario.storage_down scenario.client "app" "1.0.0" "app.bin"
            scenario.file_content None _ _
            (PStr "https://s3.example/put") scenario.file_content
            {[ "Content-Type" := "application/octet-stream" ]}
            scenario.s3_error _ _ _).
  - apply surjective_pairing.
  - vm_compute. right. right. left. reflexivity.
  - discriminate.
Defined.

(** C9: when the request-upload-URL call hands back an ApiResult with a
    truthy success flag but [data = None], [upload_large_file] returns that
    very ApiResult and its trace holds neither a storage PUT nor a
    completion POST. *)
Theorem upload_aborts_on_missing_data
    (net : network) self app_id ver fn (C : list byte) rn tr1 ar :
  run net [EvHash C (hashlib.sha256_hexdigest C)]
      (admin.get_large_upload_url self app_id ver fn (Z.of_nat (length C))
         admin.octet_stream) = (tr1, Returned ar) ->
  py.truthy (base.success ar) = true ->
  base.data ar = PNone ->
  run net [] (admin.upload_large_file self app_id ver fn C rn) = (tr1, Returned ar)
  /\ Forall (fun ev => is_storage_put ev = false
                       /\ is_post_to self complete_path ev = false) tr1.
Proof.
  intros Hurl Hs Hd. split.
  - unfold admin.upload_large_file.
    rewrite run_bind, run_sha256. cbn [List.app].
    rewrite run_bind, Hurl, Hs, Hd. reflexivity.
  - unfold admin.get_large_upload_url in Hurl. rewrite run_post in Hurl.
    cbn zeta in Hurl. injection Hurl as <- _.
    repeat constructor. cbn. rewrite url_eqb. reflexivity.
Qed.

Lemma upload_aborts_on_missing_data_witness :
  scenario.upload scenario.granted_without_data =
  ([EvHash scenario.file_content
      "ba7816bf8f01cfea414140de5dae2223b00361a396177a9cb410ff61f20015ad";
    EvCall
      (requests.SessionPost (base.session scenario.client)
         "https://api.bindist.eu/v1/management/upload/large-url"
         (Some {[ "applicationId" := PStr "app"; "version" := PStr "1.0.0";
                  "fileName" := PStr "app.bin"; "fileSize" := PInt 3;
                  "contentType" := PStr "application/octet-stream" ]})
         None)
      (requests.Replied scenario.success_without_data)],
   Returned
     (base.mkApiResponse (PBool true) 200 PNone PNone PNone
        (PDict {[ "success" := PBool true; "data" := PNone ]}))).
Proof.
  refine (proj1 (upload_aborts_on_missing_data
                   scenario.granted_without_data scenario.client "app" "1.0.0"
                   "app.bin" scenario.file_content None _ _ _ _ _)).
  - vm_compute. reflexivity.
  - reflexivity.
  - reflexivity.
Defined.

(** ** Download and verify *)

Lemma str_ne_true (a : string) (v : pyval) :
  py.str_ne a v = true <-> v <> PStr a.
Proof.
  destruct v as [ | | | |s| | ]; cbn; try (split; [discriminate | reflexivity]).
  rewrite negb_true_iff, String.eqb_neq. split; intros H; congruence.
Qed.

Lemma download_file_run (net : network) self app_id ver fid tc verify :
  run net [] (customer.download_file self app_id ver fid tc verify) =
  match run net [] (customer.get_download_url self app_id ver fid tc) with
  | (tr1, Raised e) => (tr1, Raised e)
  | (tr1, Returned ar) =>
      if negb (py.truthy (base.success ar)) || py.is_none (base.data ar)
      then (tr1, Raised (customer.download_url_failed (base.error ar)))
      else
        match base.data ar with
        | PDict d =>
            match d !! "url" with
            | None => (tr1, Raised (KeyError "url"))
            | Some url =>
                match run net tr1 (base.download self url) with
                | (tr2, Raised e) => (tr2, Raised e)
                | (tr2, Returned content) =>
                    let expected := default PNone (d !! "checksum") in
                    let actual := hashlib.sha256_hexdigest content in
                    if verify && py.truthy expected
                    then (tr2 ++ [EvHash content actual],
                          if py.str_ne actual expected
                          then Raised (customer.checksum_mismatch expected actual)
                          else Returned (content, metadata_of d))
                    else (tr2, Returned (content, metadata_of d))
                end
            end
        | _ => (tr1, Raised TypeError)
        end
  end.
Proof.
  unfold customer.download_file. rewrite run_bind.
  destruct (run net [] (customer.get_download_url self app_id ver fid tc))
    as [tr1 [ar|e]]; [|reflexivity].
  destruct (negb (py.truthy (base.success ar)) || py.is_none (base.data ar));
    [reflexivity|].
  rewrite run_bind, run_lift.
  destruct (base.data ar) as [ | | | | | |d]; try reflexivity.
  cbn [py.getitem]. destruct (d !! "url") as [url|]; [|reflexivity].
  do 4 (rewrite run_bind, run_lift; cbn [py.get]).
  rewrite run_bind.
  destruct (run net tr1 (base.download self url)) as [tr2 [content|e]]; [|reflexivity].
  cbv zeta.
  destruct (verify && py.truthy (default PNone (d !! "checksum"))); [|reflexivity].
  rewrite run_bind, run_sha256.
  destruct (py.str_ne _ _); reflexivity.
Qed.

(** C4 (as the code has it): once the get-download-URL call has returned an
    ApiResult, [download_file] raises exactly when (a) the success flag is
    falsy or data is None, and then the exception carries the envelope's
    error; or data has no ['url'] to index; or the storage GET itself raises
    (transport failure, or [HTTPError] on a 4xx/5xx status); or (b)
    [verify_checksum] holds, the checksum in data is truthy and differs from
    the SHA-256 hex digest of the fetched bytes, and then the [ValueError]
    carries both.  With a falsy checksum and the bytes fetched it returns
    the content and the metadata, [verify_checksum] or not. *)
Theorem download_file_raises_iff
    (net : network) self app_id ver fid tc verify tr1 ar :
  run net [] (customer.get_download_url self app_id ver fid tc) = (tr1, Returned ar) ->
  let out := (run net [] (customer.download_file self app_id ver fid tc verify)).2 in
  let unusable := py.truthy (base.success ar) = false \/ base.data ar = PNone in
  let no_url := exists e, py.getitem (base.data ar) "url" = Err e in
  let fetched (r : outcome (list byte)) :=
    exists url tr2, py.getitem (base.data ar) "url" = Ok url
                    /\ run net tr1 (base.download self url) = (tr2, r) in
  let mismatch (expected : pyval) (content : list byte) :=
    verify = true
    /\ py.get (base.data ar) "checksum" PNone = Ok expected
    /\ py.truthy expected = true
    /\ fetched (Returned content)
    /\ expected <> PStr (hashlib.sha256_hexdigest content) in
  ((exists e, out = Raised e) <->
     unusable \/ no_url \/ (exists e, fetched (Raised e))
     \/ (exists expected content, mismatch expected content))
  /\ (unusable ->
      out = Raised (Exception_ [Lit "Failed to get download URL: ";
                                Fmt (base.error ar)]))
  /\ (forall expected content,
        ~ unusable -> mismatch expected content ->
        out = Raised (ValueError [Lit "Checksum mismatch: expected "; Fmt expected;
                                  Lit ", got ";
                                  Fmt (PStr (hashlib.sha256_hexdigest content))]))
  /\ (forall expected content,
        ~ unusable -> fetched (Returned content) ->
        py.get (base.data ar) "checksum" PNone = Ok expected ->
        py.truthy expected = false ->
        exists metadata : gmap string pyval,
          out = Returned (content, metadata)
          /\ metadata !! "checksum" = Some expected).
Proof.
  intros Hurl out unusable no_url fetched mismatch.
  subst out. rewrite download_file_run, Hurl.
  assert (Hun : negb (py.truthy (base.success ar)) || py.is_none (base.data ar) = true
                <-> unusable).
  { unfold unusable. rewrite orb_true_iff, negb_true_iff.
    destruct (base.data ar); cbn; intuition congruence. }
  destruct (negb (py.truthy (base.success ar)) || py.is_none (base.data ar)) eqn:Hg.
  { assert (Hu : unusable) by (apply Hun; reflexivity).
    repeat split; eauto; intros; contradiction. }
  assert (Hnu : ~ unusable) by (intros Hu; apply Hun in Hu; discriminate).
  split; [|split; [intros; contradiction|]].
  - (* raises iff *)
    subst no_url fetched mismatch. cbv beta.
    destruct (base.data ar) as [ | | | | | |d] eqn:Hd; cbn [py.getitem py.get snd].
    1-6: split; [intros _; right; left; eauto | eauto].
    destruct (d !! "url") as [url|] eqn:Hu; cbn [snd].
    2: split; [intros _; right; left; eauto | eauto].
    destruct (run net tr1 (base.download self url)) as [tr2 [content|e]] eqn:Hdl;
      cbn [snd].
    2: { split; [intros _|eauto]. right. right. left. eauto 6. }
    cbv zeta.
    destruct verify; cbn [andb].
    + destruct (py.truthy (default PNone (d !! "checksum"))) eqn:Ht; cbn [snd].
      * destruct (py.str_ne _ _) eqn:Hne.
        -- split; [intros _|eauto]. do 3 right.
           exists (default PNone (d !! "checksum")), content.
           repeat split; eauto. apply str_ne_true. exact Hne.
        -- split; [intros [e He]; discriminate He|].
           intros [Hu'|[[e He]|[(e & u' & t' & [= <-] & Hr)|(ex & ct & _ & [= <-] & _ & (u' & t' & [= <-] & Hr) & Hn)]]].
           ++ contradiction.
           ++ discriminate He.
           ++ rewrite Hdl in Hr. discriminate Hr.
           ++ rewrite Hdl in Hr. injection Hr as <- <-.
              apply str_ne_true in Hn. congruence.
      * split; [intros [e He]; discriminate He|].
        intros [Hu'|[[e He]|[(e & u' & t' & [= <-] & Hr)|(ex & ct & _ & [= <-] & Ht' & _)]]].
        -- contradiction.
        -- discriminate He.
        -- rewrite Hdl in Hr. discriminate Hr.
        -- congruence.
    + split; [intros [e He]; discriminate He|].
      intros [Hu'|[[e He]|[(e & u' & t' & [= <-] & Hr)|(ex & ct & Hv & _)]]].
      * contradiction.
      * discriminate He.
      * rewrite Hdl in Hr. discriminate Hr.
      * discriminate Hv.
  - subst fetched mismatch. cbv beta. split.
    + intros expected content _ (-> & Hex & Ht & (url & tr2 & Hu & Hdl) & Hne).
      destruct (base.data ar) as [ | | | | | |d]; try discriminate Hu.
      cbn in Hu, Hex. injection Hex as <-.
      destruct (d !! "url") as [u'|]; [|discriminate Hu]. injection Hu as ->.
      apply str_ne_true in Hne.
      rewrite Hdl. cbv zeta. cbn [andb]. rewrite Ht. cbn [snd]. rewrite Hne.
      reflexivity.
    + intros expected content _ (url & tr2 & Hu & Hdl) Hex Ht.
      destruct (base.data ar) as [ | | | | | |d]; try discriminate Hu.
      cbn in Hu, Hex. injection Hex as <-.
      destruct (d !! "url") as [u'|]; [|discriminate Hu]. injection Hu as ->.
      rewrite Hdl. cbv zeta. rewrite Ht, andb_false_r. cbn [snd].
      eexists. split; [reflexivity|].
      unfold metadata_of. generalize (default PNone (d !! "checksum")).
      intros v. reflexivity.
Qed.

Lemma download_file_raises_iff_witness :
  (scenario.fetch scenario.tampered).2 =
  Raised (ValueError
            [Lit "Checksum mismatch: expected ";
             Fmt (PStr "0000000000000000000000000000000000000000000000000000000000000000");
             Lit ", got ";
             Fmt (PStr "ba7816bf8f01cfea414140de5dae2223b00361a396177a9cb410ff61f20015ad")]).
Proof.
  pose (url_run := run scenario.tampered []
          (customer.get_download_url scenario.client "app" "1.0.0" None false)).
  pose (expected :=
          PStr "0000000000000000000000000000000000000000000000000000000000000000").
  pose (data := {[ "url" := PStr "https://s3.example/get";
                   "fileName" := PStr "app.bin";
                   "checksum" := expected ]} : gmap string pyval).
  pose (ar := base.mkApiResponse (PBool true) 200 (PDict data) PNone PNone
                (PDict {[ "success" := PBool true; "data" := PDict data ]})).
  assert (Hurl : url_run = (url_run.1, Returned ar)) by (vm_compute; reflexivity).
  destruct (download_file_raises_iff scenario.tampered scenario.client
              "app" "1.0.0" None false true url_run.1 ar Hurl)
    as (_ & _ & Hmismatch & _).
  rewrite <- sha256_abc.
  apply Hmismatch.
  - intros [H|H]; discriminate H.
  - repeat split.
    + exists (PStr "https://s3.example/get"),
        (run scenario.tampered url_run.1
           (base.download scenario.client (PStr "https://s3.example/get"))).1.
      split; [reflexivity | vm_compute; reflexivity].
    + rewrite sha256_abc. discriminate.
Defined.

(** C4 as stated fails when storage answers 404: the URL response is
    successful with data and names no checksum, yet [download_file] raises
    ([HTTPError] from [raise_for_status]). *)
Lemma download_file_raises_on_missing_object :
  let url_out :=
    (run scenario.object_missing []
       (customer.get_download_url scenario.client "app" "1.0.0" None false)).2 in
  let tr := (scenario.fetch scenario.object_missing).1 in
  let out := (scenario.fetch scenario.object_missing).2 in
  out = Raised (HTTPError 404)
  /\ ~ ((exists e, out = Raised e) <->
        (exists ar, url_out = Returned ar
                    /\ (py.truthy (base.success ar) = false \/ base.data ar = PNone))
        \/ (exists ar expected url r,
              url_out = Returned ar
              /\ py.get (base.data ar) "checksum" PNone = Ok expected
              /\ expected <> PNone
              /\ In (EvCall (requests.Get url) (requests.Replied r)) tr
              /\ expected <> PStr (hashlib.sha256_hexdigest (requests.content r)))).
Proof.
  split; [vm_compute; reflexivity|].
  intros [Hraise _].
  destruct Hraise as [(ar & Har & Hbad)|(ar & expected & url & r & Har & Hget & Hne & _)].
  - eexists. vm_compute. reflexivity.
  - vm_compute in Har. injection Har as <-.
    destruct Hbad as [Hbad|Hbad]; vm_compute in Hbad; discriminate Hbad.
  - vm_compute in Har. injection Har as <-.
    vm_compute in Hget. injection Hget as <-. contradiction.
Qed.

(** C10: with [verify_checksum = True] and a URL response whose data holds
    ['checksum': ''], [download_file] returns the fetched content and the
    metadata (checksum [''] included) without computing any digest, although
    no SHA-256 hex digest is the empty string. *)
Theorem download_skips_empty_checksum
    (net : network) self app_id ver fid tc tr1 ar d url tr2 content :
  run net [] (customer.get_download_url self app_id ver fid tc) = (tr1, Returned ar) ->
  py.truthy (base.success ar) = true ->
  base.data ar = PDict d ->
  d !! "url" = Some url ->
  d !! "checksum" = Some (PStr "") ->
  run net tr1 (base.download self url) = (tr2, Returned content) ->
  (exists metadata : gmap string pyval,
     run net [] (customer.download_file self app_id ver fid tc true)
     = (tr2, Returned (content, metadata))
     /\ metadata !! "checksum" = Some (PStr ""))
  /\ Forall (fun ev => is_hash ev = false) tr2
  /\ hashlib.sha256_hexdigest content <> "".
Proof.
  intros Hurl Hs Hd Hu Hc Hdl. split; [|split].
  - rewrite download_file_run, Hurl, Hs, Hd. cbn [negb orb py.is_none].
    rewrite Hu, Hdl. cbv zeta. rewrite Hc. cbn [default py.truthy String.eqb negb andb].
    eexists. split; [reflexivity|].
    unfold metadata_of. rewrite Hc. reflexivity.
  - destruct (run_get_download_url net self app_id ver fid tc []) as [c Hc1].
    rewrite Hc1 in Hurl. injection Hurl as <- _.
    rewrite run_download in Hdl. injection Hdl as <- _.
    repeat constructor.
  - apply sha256_hexdigest_nonempty.
Qed.

Lemma download_skips_empty_checksum_witness :
  exists metadata : gmap string pyval,
    (scenario.fetch scenario.empty_checksum).2
    = Returned (scenario.file_content, metadata)
    /\ metadata !! "checksum" = Some (PStr "").
Proof.
  pose (url_run := run scenario.empty_checksum []
          (customer.get_download_url scenario.client "app" "1.0.0" None false)).
  pose (data := {[ "url" := PStr "https://s3.example/get";
                   "fileName" := PStr "app.bin";
                   "checksum" := PStr "" ]} : gmap string pyval).
  pose (ar := base.mkApiResponse (PBool true) 200 (PDict data) PNone PNone
                (PDict {[ "success" := PBool true; "data" := PDict data ]})).
  pose (dl_run := run scenario.empty_checksum url_run.1
          (base.download scenario.client (PStr "https://s3.example/get"))).
  destruct (download_skips_empty_checksum scenario.empty_checksum scenario.client
              "app" "1.0.0" None false url_run.1 ar data
              (PStr "https://s3.example/get") dl_run.1 scenario.file_content)
    as [(metadata & Hrun & Hm) _].
  - vm_compute. reflexivity.
  - reflexivity.
  - reflexivity.
  - reflexivity.
  - reflexivity.
  - vm_compute. reflexivity.
  - exists metadata. split; [|exact Hm].
    unfold scenario.fetch. rewrite Hrun. reflexivity.
Defined.









(** ** Whole runs on the scripted networks *)

Example upload_succeeds_result :
  (scenario.upload scenario.upload_succeeds).2 =
  Returned
    (base.mkApiResponse (PBool true) 200
       (PDict {[ "version" := PStr "1.0.0" ]}) PNone PNone
       (PDict {[ "success" := PBool true;
                 "data" := PDict {[ "version" := PStr "1.0.0" ]} ]})).
Proof. vm_compute. reflexivity. Qed.

Example upload_succeeds_calls :
  map (fun ev => match ev with
                 | EvHash _ _ => "sha256"
                 | EvCall (requests.SessionPost _ url _ _) _ => "POST " +:+ url
                 | EvCall (requests.Put _ _ _) _ => "PUT (storage)"
                 | EvCall _ _ => "other"
                 end)
      (scenario.upload scenario.upload_succeeds).1
  = [ "sha256";
      "POST https://api.bindist.eu/v1/management/upload/large-url";
      "PUT (storage)";
      "POST https://api.bindist.eu/v1/management/upload/large-complete" ].
Proof. vm_compute. reflexivity. Qed.

Example download_case_sensitive :
  (run (scenario.scripted
          [requests.Replied (scenario.url_with_checksum
             "BA7816BF8F01CFEA414140DE5DAE2223B00361A396177A9CB410FF61F20015AD");
           requests.Replied scenario.s3_object]) []
     (customer.download_file scenario.client "app" "1.0.0" None false true)).2
  = Raised (customer.checksum_mismatch
              (PStr "BA7816BF8F01CFEA414140DE5DAE2223B00361A396177A9CB410FF61F20015AD")
              "ba7816bf8f01cfea414140de5dae2223b00361a396177a9cb410ff61f20015ad").
Proof. vm_compute. reflexivity. Qed.

Example download_verified :
  (run (scenario.scripted
          [requests.Replied (scenario.url_with_checksum
             "ba7816bf8f01cfea414140de5dae2223b00361a396177a9cb410ff61f20015ad");
           requests.Replied scenario.s3_object]) []
     (customer.download_file scenario.client "app" "1.0.0" None false true)).2
  = Returned (scenario.file_content,
              {[ "fileName" := PStr "app.bin"; "fileSize" := PNone;
                 "checksum" := PStr "ba7816bf8f01cfea414140de5dae2223b00361a396177a9cb410ff61f20015ad";
                 "expiresAt" := PNone ]}).
Proof. vm_compute. reflexivity. Qed.

Example rstrip_slash_trailing :
  base._url scenario.client "/downloads/url" = "https://api.bindist.eu/v1/downloads/url".
Proof. vm_compute. reflexivity. Qed.

(** * Further properties of the client *)

(** ** Decoder and transport *)

(** X1: of a response whose [json()] returns a value or raises
    [JSONDecodeError], the decoder raises [AttributeError] exactly when the
    body decodes to JSON that is not an object, and returns an ApiResult
    exactly when the body is not JSON or decodes to an object. *)
Theorem from_response_raises_iff (r : requests.Response) :
  (base.from_response r = Err (AttributeError "get") <->
   exists v, requests.json r = Some v /\ forall d, v <> PDict d)
  /\ ((exists ar, base.from_response r = Ok ar) <->
      requests.json r = None \/ exists d, requests.json r = Some (PDict d)).
Proof.
  unfold base.from_response.
  destruct (requests.json r) as [v|] eqn:Hj.
  - destruct v as [ | | | | | |d]; cbn.
    1-6: split;
      [ split; [intros _; eexists; split; [reflexivity|discriminate] | reflexivity]
      | split; [intros [ar H]; discriminate H
               | intros [H|[d H]]; discriminate H] ].
    split; [split; [discriminate|] | split; [|eexists; reflexivity]].
    + intros (v & [= <-] & Hv). destruct (Hv d eq_refl).
    + intros _. right. exists d. reflexivity.
  - cbn. split; [split; [discriminate|] | split; [|eexists; reflexivity]].
    + intros (v & Hv & _). discriminate Hv.
    + intros _. left. reflexivity.
Qed.

(** X2: a body that is not JSON decodes to the very ApiResult that the JSON
    envelope [{success: false, error: {message: body}}] decodes to under the
    same status: a caller cannot tell the two apart. *)
Theorem not_json_decodes_like_error_envelope
    (status : Z) (body text : string) (content content' : list byte) :
  base.from_response (requests.mkResponse status body content None)
  = base.from_response
      (requests.mkResponse status text content'
         (Some (PDict {[ "success" := PBool false;
                         "error" := PDict {[ "message" := PStr body ]} ]}))).
Proof. reflexivity. Qed.

Lemma list_ascii_of_string_append (s t : string) :
  list_ascii_of_string (s +:+ t) = list_ascii_of_string s ++ list_ascii_of_string t.
Proof.
  induction s as [|c s IH]; [reflexivity|].
  change (c :: list_ascii_of_string (s +:+ t)
          = c :: (list_ascii_of_string s ++ list_ascii_of_string t)).
  rewrite IH. reflexivity.
Qed.

Lemma string_of_list_ascii_append (l m : list ascii) :
  string_of_list_ascii (l ++ m) = string_of_list_ascii l +:+ string_of_list_ascii m.
Proof.
  induction l as [|c l IH]; [reflexivity|].
  change (String c (string_of_list_ascii (l ++ m))
          = String c (string_of_list_ascii l +:+ string_of_list_ascii m)).
  rewrite IH. reflexivity.
Qed.

Lemma lstrip_slash_repeat (n : nat) (l : list ascii) :
  py.lstrip_slash (repeat "/"%char n ++ l) = py.lstrip_slash l.
Proof. induction n as [|n IH]; cbn; [reflexivity | exact IH]. Qed.

Lemma lstrip_slash_split (l : list ascii) :
  exists n, l = repeat "/"%char n ++ py.lstrip_slash l.
Proof.
  induction l as [|c l [n IH]]; [exists 0%nat; reflexivity|].
  cbn. destruct (Ascii.eqb_spec c "/") as [->|Hne].
  - exists (S n). cbn. rewrite <- IH. reflexivity.
  - exists 0%nat. reflexivity.
Qed.

Lemma lstrip_slash_head (l : list ascii) (rest : list ascii) :
  py.lstrip_slash l <> "/"%char :: rest.
Proof.
  induction l as [|c l IH]; cbn; [discriminate|].
  destruct (Ascii.eqb_spec c "/") as [->|Hne]; [exact IH|].
  intros [= Hc _]. contradiction.
Qed.

Lemma repeat_rev {A : Type} (x : A) (n : nat) : rev (repeat x n) = repeat x n.
Proof.
  induction n as [|n IH]; [reflexivity|].
  cbn [repeat rev]. rewrite IH. symmetry. apply repeat_cons.
Qed.

Lemma rstrip_slash_slashes (s : string) (n : nat) :
  py.rstrip_slash (s +:+ slashes n) = py.rstrip_slash s.
Proof.
  unfold py.rstrip_slash, slashes.
  rewrite list_ascii_of_string_append, list_ascii_of_string_of_list_ascii.
  rewrite rev_app_distr, repeat_rev, lstrip_slash_repeat. reflexivity.
Qed.

Lemma rstrip_slash_split (s : string) :
  exists n, s = py.rstrip_slash s +:+ slashes n.
Proof.
  unfold py.rstrip_slash, slashes.
  destruct (lstrip_slash_split (rev (list_ascii_of_string s))) as [n Hn].
  exists n.
  rewrite <- string_of_list_ascii_append.
  rewrite <- (repeat_rev "/"%char n), <- rev_app_distr, <- Hn, rev_involutive.
  symmetry. apply string_of_list_ascii_of_string.
Qed.

Lemma rstrip_slash_no_trailing (s t : string) :
  py.rstrip_slash s <> t +:+ "/".
Proof.
  unfold py.rstrip_slash. intros H.
  apply (f_equal list_ascii_of_string) in H.
  rewrite list_ascii_of_string_of_list_ascii, list_ascii_of_string_append in H.
  apply (f_equal (@rev ascii)) in H.
  rewrite rev_involutive, rev_app_distr in H. cbn in H.
  exact (lstrip_slash_head _ _ H).
Qed.

(** X3: trailing slashes of the base URL do not matter: any number of them
    gives the same request URLs, the stored base URL never ends in a slash,
    and only slashes were removed from it. *)
Theorem base_url_trailing_slashes
    (fresh : requests.Session) (base_url key path : string) (n : nat) :
  let self := base.__init__ fresh base_url key in
  base._url (base.__init__ fresh (base_url +:+ slashes n) key) path
  = base._url self path
  /\ (forall t, base.base_url self <> t +:+ "/")
  /\ (exists m, base_url = base.base_url self +:+ slashes m).
Proof.
  cbn. unfold base._url. cbn. rewrite rstrip_slash_slashes.
  split; [reflexivity|]. split.
  - intros t. apply rstrip_slash_no_trailing.
  - apply rstrip_slash_split.
Qed.

(** X4: get, post, patch and delete return an ApiResult carrying the HTTP
    status whenever the reply's body is not JSON or is a JSON object,
    whatever that status is; the one call is all that is added to the
    trace. *)
Theorem endpoint_calls_return_on_any_status
    (net : network) (self : base.BaseClient) (tr : list event) (path : string)
    (params json : option (gmap string pyval)) (h : option (gmap string string)) :
  Forall (fun pc : prog base.ApiResponse * requests.call =>
            forall r : requests.Response,
              net tr pc.2 = requests.Replied r ->
              (requests.json r = None \/ exists d, requests.json r = Some (PDict d)) ->
              exists ar,
                run net tr pc.1 = (tr ++ [EvCall pc.2 (requests.Replied r)], Returned ar)
                /\ base.status_code ar = requests.status_code r)
    [ (base.get self path params h,
       requests.SessionGet (base.session self) (base._url self path) params h);
      (base.post self path json h,
       requests.SessionPost (base.session self) (base._url self path) json h);
      (base.patch self path json h,
       requests.SessionPatch (base.session self) (base._url self path) json h);
      (base.delete self path h,
       requests.SessionDelete (base.session self) (base._url self path) h) ].
Proof.
  assert (Hdec : forall r,
             (requests.json r = None \/ exists d, requests.json r = Some (PDict d)) ->
             exists ar, base.from_response r = Ok ar
                        /\ base.status_code ar = requests.status_code r).
  { intros r [Hj|[d Hj]]; unfold base.from_response; rewrite Hj;
      eexists; split; reflexivity. }
  repeat constructor; cbn [fst snd]; intros r Hr Hj;
    destruct (Hdec r Hj) as (ar & Har & Hst); exists ar;
    (split; [|exact Hst]);
    unfold base.get, base.post, base.patch, base.delete;
    rewrite run_session, Hr; unfold decoded; rewrite Har; reflexivity.
Qed.

Lemma endpoint_calls_return_on_any_status_witness :
  exists ar,
    run scenario.refused [] (base.post scenario.client "/downloads/share" None None)
    = ([EvCall (requests.SessionPost (base.session scenario.client)
                  (base._url scenario.client "/downloads/share") None None)
          (requests.Replied scenario.forbidden)],
       Returned ar)
    /\ base.status_code ar = 403.
Proof.
  pose proof (endpoint_calls_return_on_any_status scenario.refused scenario.client
                [] "/downloads/share" None None None) as Hall.
  apply Forall_inv_tail, Forall_inv in Hall.
  apply (Hall scenario.forbidden).
  - reflexivity.
  - right. eexists. reflexivity.
Defined.

(** X5: [download] issues one [requests.get] and returns the body exactly
    when a response arrived whose status lies outside 400..599. *)
Theorem download_raises_on_http_error
    (net : network) (self : base.BaseClient) (url : pyval) (tr : list event) :
  let c := requests.Get url in
  (run net tr (base.download self url)).1 = tr ++ [EvCall c (net tr c)]
  /\ forall content,
       (run net tr (base.download self url)).2 = Returned content <->
       exists r, net tr c = requests.Replied r
                 /\ requests.content r = content
                 /\ (requests.status_code r < 400 \/ 600 <= requests.status_code r).
Proof.
  cbn zeta. rewrite run_download. cbn [fst snd]. split; [reflexivity|].
  intros content. destruct (net tr (requests.Get url)) as [r|e].
  - destruct (Z.leb_spec 400 (requests.status_code r));
      destruct (Z.ltb_spec (requests.status_code r) 600); cbn [andb].
    + split; [discriminate|]. intros (r' & [= <-] & _ & Hs). lia.
    + split; [intros [= <-]; exists r; repeat split; lia|].
      intros (r' & [= <-] & <- & _). reflexivity.
    + split; [intros [= <-]; exists r; repeat split; lia|].
      intros (r' & [= <-] & <- & _). reflexivity.
    + split; [intros [= <-]; exists r; repeat split; lia|].
      intros (r' & [= <-] & <- & _). reflexivity.
  - split; [discriminate|]. intros (r' & Hr & _). discriminate Hr.
Qed.

(** ** Large-file upload *)

(** X6: when the URL request grants an upload id and URL and storage answers
    200, the rest of [upload_large_file] is the completion call, made with
    that upload id and the digest of the content; its outcome is the
    orchestrator's. *)
Theorem upload_completes
    (net : network) self app_id ver fn (C : list byte) rn tr1 ar d uid url s3 :
  let digest := hashlib.sha256_hexdigest C in
  let put := requests.Put url C {[ "Content-Type" := "application/octet-stream" ]} in
  run net [EvHash C digest]
      (admin.get_large_upload_url self app_id ver fn (Z.of_nat (length C))
         admin.octet_stream) = (tr1, Returned ar) ->
  py.truthy (base.success ar) = true ->
  base.data ar = PDict d ->
  d !! "uploadId" = Some uid ->
  d !! "uploadUrl" = Some url ->
  net tr1 put = requests.Replied s3 ->
  requests.status_code s3 = 200 ->
  run net [] (admin.upload_large_file self app_id ver fn C rn)
  = run net (tr1 ++ [EvCall put (requests.Replied s3)])
        (admin.complete_large_upload self uid app_id ver fn (Z.of_nat (length C))
           digest rn).
Proof.
  intros digest put Hurl Hs Hd Hid Hu Hput H200. subst digest.
  unfold admin.upload_large_file.
  rewrite run_bind, run_sha256. cbn [List.app].
  rewrite run_bind, Hurl, Hs, Hd. cbn [negb orb py.is_none py.getitem].
  rewrite Hid, Hu.
  rewrite run_bind, run_lift, run_bind, run_lift, run_bind.
  unfold base.put_binary. rewrite run_http.
  change (requests.Put url C {[ "Content-Type" := admin.octet_stream ]}) with put.
  rewrite Hput, H200. reflexivity.
Qed.

Lemma upload_completes_witness :
  (scenario.upload scenario.upload_succeeds).2 =
  Returned
    (base.mkApiResponse (PBool true) 200
       (PDict {[ "version" := PStr "1.0.0" ]}) PNone PNone
       (PDict {[ "success" := PBool true;
                 "data" := PDict {[ "version" := PStr "1.0.0" ]} ]})).
Proof.
  pose (d := {[ "uploadId" := PStr "u-1";
                "uploadUrl" := PStr "https://s3.example/put" ]} : gmap string pyval).
  pose (ar := base.mkApiResponse (PBool true) 200 (PDict d) PNone PNone
                (PDict {[ "success" := PBool true; "data" := PDict d ]})).
  pose (url_run :=
          run scenario.upload_succeeds
            [EvHash scenario.file_content
               (hashlib.sha256_hexdigest scenario.file_content)]
            (admin.get_large_upload_url scenario.client "app" "1.0.0" "app.bin"
               (Z.of_nat (length scenario.file_content)) admin.octet_stream)).
  unfold scenario.upload.
  rewrite (upload_completes scenario.upload_succeeds scenario.client "app" "1.0.0"
             "app.bin" scenario.file_content None url_run.1 ar d (PStr "u-1")
             (PStr "https://s3.example/put") scenario.s3_ok).
  - vm_compute. reflexivity.
  - vm_compute. reflexivity.
  - reflexivity.
  - reflexivity.
  - reflexivity.
  - reflexivity.
  - vm_compute. reflexivity.
  - reflexivity.
Defined.

(** X7: a successful URL response whose data lacks ['uploadId'] or
    ['uploadUrl'] (or is not a dict) makes [upload_large_file] raise
    [KeyError] or [TypeError] before any storage PUT. *)
Theorem upload_raises_on_malformed_grant
    (net : network) self app_id ver fn (C : list byte) rn tr1 ar e :
  run net [EvHash C (hashlib.sha256_hexdigest C)]
      (admin.get_large_upload_url self app_id ver fn (Z.of_nat (length C))
         admin.octet_stream) = (tr1, Returned ar) ->
  py.truthy (base.success ar) = true ->
  base.data ar <> PNone ->
  (py.getitem (base.data ar) "uploadId" = Err e
   \/ (exists uid, py.getitem (base.data ar) "uploadId" = Ok uid)
      /\ py.getitem (base.data ar) "uploadUrl" = Err e) ->
  run net [] (admin.upload_large_file self app_id ver fn C rn) = (tr1, Raised e)
  /\ Forall (fun ev => is_storage_put ev = false) tr1
  /\ (e = TypeError \/ e = KeyError "uploadId" \/ e = KeyError "uploadUrl").
Proof.
  intros Hurl Hs Hd He. split; [|split].
  - unfold admin.upload_large_file.
    rewrite run_bind, run_sha256. cbn [List.app].
    rewrite run_bind, Hurl, Hs.
    assert (Hn : py.is_none (base.data ar) = false)
      by (destruct (base.data ar); try reflexivity; contradiction).
    rewrite Hn. cbn [negb orb].
    rewrite run_bind, run_lift.
    destruct He as [He|[[uid Hid] He]].
    + rewrite He. reflexivity.
    + rewrite Hid, run_bind, run_lift, He. reflexivity.
  - unfold admin.get_large_upload_url in Hurl. rewrite run_post in Hurl.
    cbn zeta in Hurl. injection Hurl as <- _. repeat constructor.
  - destruct (base.data ar) as [ | | | | | |d]; cbn in He.
    1-6: destruct He as [[= <-]|[_ [= <-]]]; left; reflexivity.
    destruct He as [He|[_ He]].
    + destruct (d !! "uploadId"); [discriminate He|].
      injection He as <-. right. left. reflexivity.
    + destruct (d !! "uploadUrl"); [discriminate He|].
      injection He as <-. right. right. reflexivity.
Qed.

Lemma upload_raises_on_malformed_grant_witness :
  (scenario.upload scenario.malformed_grant).2 = Raised (KeyError "uploadUrl").
Proof.
  pose (d := {[ "uploadId" := PStr "u-1" ]} : gmap string pyval).
  pose (ar := base.mkApiResponse (PBool true) 200 (PDict d) PNone PNone
                (PDict {[ "success" := PBool true; "data" := PDict d ]})).
  pose (url_run :=
          run scenario.malformed_grant
            [EvHash scenario.file_content
               (hashlib.sha256_hexdigest scenario.file_content)]
            (admin.get_large_upload_url scenario.client "app" "1.0.0" "app.bin"
               (Z.of_nat (length scenario.file_content)) admin.octet_stream)).
  destruct (upload_raises_on_malformed_grant scenario.malformed_grant
              scenario.client "app" "1.0.0" "app.bin" scenario.file_content None
              url_run.1 ar (KeyError "uploadUrl")) as [Hrun _].
  - vm_compute. reflexivity.
  - reflexivity.
  - discriminate.
  - right. split; [eexists|]; reflexivity.
  - unfold scenario.upload. rewrite Hrun. reflexivity.
Defined.

(** X8: the events of every run of [upload_large_file] are an initial
    segment, of length 2 to 4, of: hash, URL request, storage PUT,
    completion.  Nothing is repeated and no step is skipped. *)
Theorem upload_protocol_order
    (net : network) self app_id ver fn (C : list byte) rn :
  let tr := (run net [] (admin.upload_large_file self app_id ver fn C rn)).1 in
  exists n, (2 <= n <= 4)%nat
            /\ map (upload_step self) tr
               = firstn n [Some Hashed; Some UrlRequested; Some Stored; Some Completed].
Proof.
  cbn zeta.
  rewrite (upload_large_file_run net self app_id ver fn C rn); cbv zeta.
  assert (H1 : String.eqb (base._url self "/management/upload/large-url")
                 (base._url self "/management/upload/large-url") = true)
    by apply String.eqb_refl.
  assert (H2 : String.eqb (base._url self complete_path)
                 (base._url self "/management/upload/large-url") = false)
    by (rewrite url_eqb; reflexivity).
  assert (H3 : String.eqb (base._url self complete_path)
                 (base._url self complete_path) = true)
    by apply String.eqb_refl.
  upload_cases ar uid u r2; cbn [fst List.app map upload_step];
    rewrite ?H1, ?H2, ?H3.
  all: first [ exists 2%nat; split; [lia | reflexivity]
             | exists 3%nat; split; [lia | reflexivity]
             | exists 4%nat; split; [lia | reflexivity] ].
Qed.

Lemma decoded_failed (rp : requests.reply) (e : string) :
  rp = requests.Failed e -> decoded rp = Raised (RequestException e).
Proof. intros ->. reflexivity. Qed.

(** X9: if a call of [upload_large_file] fails in the transport, that
    exception is the outcome and the failed call is the last event.  When the
    failed call is the storage PUT, the run holds no POST to the completion
    endpoint; when it is the POST to the completion endpoint, the run holds a
    storage PUT of [C] that was answered with status 200. *)
Theorem upload_transport_failure_propagates
    (net : network) self app_id ver fn (C : list byte) rn c e :
  let res := run net [] (admin.upload_large_file self app_id ver fn C rn) in
  In (EvCall c (requests.Failed e)) res.1 ->
  res.2 = Raised (RequestException e)
  /\ last res.1 = Some (EvCall c (requests.Failed e))
  /\ (is_storage_put (EvCall c (requests.Failed e)) = true ->
      Forall (fun ev => is_post_to self complete_path ev = false) res.1)
  /\ (is_post_to self complete_path (EvCall c (requests.Failed e)) = true ->
      exists url s3,
        In (EvCall (requests.Put url C
                      {[ "Content-Type" := "application/octet-stream" ]})
              (requests.Replied s3)) res.1
        /\ requests.status_code s3 = 200).
Proof.
  cbn zeta.
  rewrite (upload_large_file_run net self app_id ver fn C rn); cbv zeta.
  assert (H1 : is_post_to self complete_path
                 (EvCall (requests.SessionPost (base.session self)
                            (base._url self "/management/upload/large-url")
                            (Some {[ "applicationId" := PStr app_id;
                                     "version" := PStr ver;
                                     "fileName" := PStr fn;
                                     "fileSize" := PInt (Z.of_nat (length C));
                                     "contentType" := PStr admin.octet_stream ]})
                            None) (requests.Failed e)) = false)
    by (cbn; rewrite url_eqb; reflexivity).
  assert (H1' : forall rp,
             is_post_to self complete_path
               (EvCall (requests.SessionPost (base.session self)
                          (base._url self "/management/upload/large-url")
                          (Some {[ "applicationId" := PStr app_id;
                                   "version" := PStr ver;
                                   "fileName" := PStr fn;
                                   "fileSize" := PInt (Z.of_nat (length C));
                                   "contentType" := PStr admin.octet_stream ]})
                          None) rp) = false)
    by (intros rp; cbn; rewrite url_eqb; reflexivity).
  upload_cases ar uid u r2; cbn [fst snd List.app]; intros Hin; cbn in Hin.
  all: repeat match goal with
         | H : _ \/ _ |- _ => destruct H as [H|H]
         | H : False |- _ => destruct H
         | H : EvHash _ _ = EvCall _ _ |- _ => discriminate H
         | H : EvCall _ _ = EvCall _ _ |- _ => injection H as ? ?
         end.
  all: subst.
  all: repeat match goal with
         | H : ?x = requests.Failed _, H' : context [decoded ?x] |- _ =>
             rewrite (decoded_failed _ _ H) in H'
         | H : ?x = requests.Failed _, H' : ?x = _ |- _ =>
             rewrite H in H'
         | H : ?x = requests.Failed _ |- context [decoded ?x] =>
             rewrite (decoded_failed _ _ H)
         end.
  all: try discriminate.
  all: try match goal with
         | H : Raised _ = Raised _ |- _ => injection H as <-
         | H : requests.Failed _ = requests.Failed _ |- _ => injection H as <-
         end.
  all: split; [try reflexivity; cbn; congruence|].
  all: split; [try reflexivity; cbn; congruence|].
  all: split.
  all: try (intros Hp; cbn in Hp; discriminate Hp).
  all: try (intros Hp; rewrite H1 in Hp; discriminate Hp).
  - intros _. exists u, r2. split.
    + right. right. left. reflexivity.
    + match goal with
      | H : negb _ = false |- _ => apply negb_false_iff, Z.eqb_eq in H; exact H
      end.
  - intros _. repeat constructor. apply H1'.
Qed.

Lemma upload_transport_failure_propagates_witness :
  (scenario.upload scenario.storage_unreachable).2
    = Raised (RequestException "connection refused")
  /\ Forall (fun ev => is_post_to scenario.client complete_path ev = false)
       (scenario.upload scenario.storage_unreachable).1.
Proof.
  assert (Hin : In (EvCall (requests.Put (PStr "https://s3.example/put")
                              scenario.file_content
                              {[ "Content-Type" := "application/octet-stream" ]})
                      (requests.Failed "connection refused"))
                   (scenario.upload scenario.storage_unreachable).1)
    by (vm_compute; right; right; left; reflexivity).
  pose proof (upload_transport_failure_propagates scenario.storage_unreachable
                scenario.client "app" "1.0.0" "app.bin" scenario.file_content None
                (requests.Put (PStr "https://s3.example/put") scenario.file_content
                   {[ "Content-Type" := "application/octet-stream" ]})
                "connection refused" Hin) as H.
  split; [exact (proj1 H) | exact (proj1 (proj2 (proj2 H)) eq_refl)].
Defined.

(** X10: every storage PUT of [upload_large_file] carries the file content
    itself, the octet-stream content type and no Authorization header, and
    goes to the ['uploadUrl'] of the URL response. *)
Theorem upload_storage_put_is_the_content
    (net : network) self app_id ver fn (C : list byte) rn url data hdrs rp :
  let tr := (run net [] (admin.upload_large_file self app_id ver fn C rn)).1 in
  In (EvCall (requests.Put url data hdrs) rp) tr ->
  data = C
  /\ hdrs = {[ "Content-Type" := "application/octet-stream" ]}
  /\ requests.sent_headers (requests.Put url data hdrs) !! "Authorization" = None
  /\ exists tr1 ar,
       run net [EvHash C (hashlib.sha256_hexdigest C)]
         (admin.get_large_upload_url self app_id ver fn (Z.of_nat (length C))
            admin.octet_stream) = (tr1, Returned ar)
       /\ py.getitem (base.data ar) "uploadUrl" = Ok url.
Proof.
  cbn zeta.
  rewrite (upload_large_file_run net self app_id ver fn C rn); cbv zeta.
  unfold admin.get_large_upload_url. rewrite run_post. cbv zeta.
  upload_cases ar uid u r2; cbn [fst List.app]; intros Hin; cbn in Hin;
    pick_event; subst.
  all: repeat split; eauto.
Qed.

Lemma upload_storage_put_is_the_content_witness :
  requests.sent_headers
    (requests.Put (PStr "https://s3.example/put") scenario.file_content
       {[ "Content-Type" := "application/octet-stream" ]}) !! "Authorization"
  = None.
Proof.
  refine (proj1 (proj2 (proj2
            (upload_storage_put_is_the_content scenario.storage_down
               scenario.client "app" "1.0.0" "app.bin" scenario.file_content None
               (PStr "https://s3.example/put") scenario.file_content
               {[ "Content-Type" := "application/octet-stream" ]}
               (requests.Replied scenario.s3_error) _)))).
  vm_compute. right. right. left. reflexivity.
Defined.

(** X11: the completion call of [upload_large_file] carries the application
    id, version and file name given, and ['releaseNotes'] exactly when the
    release notes are a non-empty string. *)
Theorem upload_release_notes_sent_iff_nonempty
    (net : network) self app_id ver fn (C : list byte) rn s body h rp :
  let tr := (run net [] (admin.upload_large_file self app_id ver fn C rn)).1 in
  In (EvCall (requests.SessionPost s (base._url self complete_path) body h) rp) tr ->
  exists payload : gmap string pyval,
    body = Some payload
    /\ payload !! "releaseNotes"
       = match rn with
         | Some notes => if String.eqb notes "" then None else Some (PStr notes)
         | None => None
         end
    /\ payload !! "applicationId" = Some (PStr app_id)
    /\ payload !! "version" = Some (PStr ver)
    /\ payload !! "fileName" = Some (PStr fn).
Proof.
  cbn zeta.
  rewrite (upload_large_file_run net self app_id ver fn C rn); cbv zeta.
  generalize (hashlib.sha256_hexdigest C) as digest. intros digest.
  upload_cases ar uid u r2; cbn [fst List.app]; intros Hin; cbn in Hin;
    pick_event; subst.
  all: try match goal with
         | H : base._url _ _ = base._url _ _ |- _ =>
             apply append_inj_l, append_inj_l in H; discriminate H
         end.
  eexists. split; [reflexivity|].
  destruct rn as [notes|]; [destruct (String.eqb notes "") eqn:Hn|]; cbn;
    rewrite ?Hn; cbn; repeat split; reflexivity.
Qed.

Lemma upload_release_notes_sent_iff_nonempty_witness :
  exists payload : gmap string pyval,
    payload !! "releaseNotes" = Some (PStr "Fixes")
    /\ payload !! "applicationId" = Some (PStr "app").
Proof.
  pose (tr := (run scenario.upload_succeeds []
                 (admin.upload_large_file scenario.client "app" "1.0.0" "app.bin"
                    scenario.file_content (Some "Fixes"))).1).
  pose (completion := nth 3 tr (EvHash [] "")).
  assert (Hc : exists s body h rp,
             completion
             = EvCall (requests.SessionPost s
                         (base._url scenario.client complete_path) body h) rp)
    by (vm_compute; do 4 eexists; reflexivity).
  destruct Hc as (s & body & h & rp & Hc).
  destruct (upload_release_notes_sent_iff_nonempty scenario.upload_succeeds
              scenario.client "app" "1.0.0" "app.bin" scenario.file_content
              (Some "Fixes") s body h rp) as (payload & _ & Hn & Ha & _).
  - rewrite <- Hc. vm_compute. do 3 right. left. reflexivity.
  - exists payload. split; [exact Hn | exact Ha].
Defined.

(** ** Download *)

(** Case analysis over the paths of [download_file_run]. *)
Ltac download_cases tr1 ar d url tr2 content :=
  match goal with
  | |- context [run ?net [] (customer.get_download_url ?s ?a ?v ?f ?t)] =>
      destruct (run net [] (customer.get_download_url s a v f t))
        as [tr1 [ar|?]] eqn:?
  end;
  [ destruct (negb (py.truthy (base.success ar)) || py.is_none (base.data ar)) eqn:?;
    [ | destruct (base.data ar) as [ | | | | | |d] eqn:?;
        [ | | | | | | destruct (d !! "url") as [url|] eqn:?;
                      [ match goal with
                        | |- context [run ?net tr1 (base.download ?s url)] =>
                            destruct (run net tr1 (base.download s url))
                              as [tr2 [content|?]] eqn:?
                        end
                      | ] ] ]
  | ].

(** X12: if [download_file] returns with [verify_checksum = True] and the
    reported checksum is truthy, then that checksum is the SHA-256 hex digest
    of the returned content, which the run computed. *)
Theorem download_verified_is_sound
    (net : network) self app_id ver fid tc tr content metadata :
  run net [] (customer.download_file self app_id ver fid tc true)
  = (tr, Returned (content, metadata)) ->
  exists expected,
    metadata !! "checksum" = Some expected
    /\ (py.truthy expected = true ->
        expected = PStr (hashlib.sha256_hexdigest content)
        /\ In (EvHash content (hashlib.sha256_hexdigest content)) tr).
Proof.
  rewrite download_file_run.
  download_cases tr1 ar d url tr2 body; try discriminate.
  cbv zeta. cbn [andb].
  destruct (py.truthy (default PNone (d !! "checksum"))) eqn:Ht.
  - destruct (py.str_ne _ _) eqn:Hne; [discriminate|].
    intros [= <- <- <-].
    exists (default PNone (d !! "checksum")). split.
    + unfold metadata_of. generalize (default PNone (d !! "checksum")).
      intros v. reflexivity.
    + intros _. split.
      * destruct (default PNone (d !! "checksum")); try discriminate Hne.
        cbn in Hne. apply negb_false_iff, String.eqb_eq in Hne. congruence.
      * apply in_or_app. right. left. reflexivity.
  - intros [= <- <- <-].
    exists (default PNone (d !! "checksum")). split.
    + unfold metadata_of. generalize (default PNone (d !! "checksum")).
      intros v. reflexivity.
    + intros Ht'. congruence.
Qed.

Lemma download_verified_is_sound_witness :
  exists expected,
    expected = PStr scenario.abc_digest
    /\ expected = PStr (hashlib.sha256_hexdigest scenario.file_content).
Proof.
  pose (res := scenario.fetch scenario.verified).
  pose (metadata := {[ "fileName" := PStr "app.bin"; "fileSize" := PNone;
                       "checksum" := PStr scenario.abc_digest;
                       "expiresAt" := PNone ]} : gmap string pyval).
  destruct (download_verified_is_sound scenario.verified scenario.client
              "app" "1.0.0" None false res.1 scenario.file_content metadata)
    as (expected & Hm & Hsound).
  - vm_compute. reflexivity.
  - exists expected.
    assert (He : expected = PStr scenario.abc_digest)
      by (vm_compute in Hm; injection Hm as <-; reflexivity).
    split; [exact He|].
    assert (Ht : py.truthy expected = true) by (rewrite He; reflexivity).
    exact (proj1 (Hsound Ht)).
Defined.

Lemma decoded_not_value_error (rp : requests.reply) (msg : list fpart) :
  decoded rp <> Raised (ValueError msg).
Proof.
  unfold decoded. destruct rp as [r|e]; [|discriminate].
  unfold base.from_response.
  destruct (requests.json r) as [v|]; [destruct v|]; cbn; discriminate.
Qed.

(** X13: with [verify_checksum = False], [download_file] computes no
    digest and never raises its checksum-mismatch error; whenever the URL
    response is a success that holds ['url'] and the storage GET returns a
    content, it returns that content with the metadata of the URL response,
    whatever checksum the response names. *)
Theorem download_unverified_never_hashes
    (net : network) self app_id ver fid tc :
  let res := run net [] (customer.download_file self app_id ver fid tc false) in
  Forall (fun ev => is_hash ev = false) res.1
  /\ (forall expected actual,
        res.2 <> Raised (customer.checksum_mismatch expected actual))
  /\ (forall tr1 ar url tr2 content,
        run net [] (customer.get_download_url self app_id ver fid tc)
        = (tr1, Returned ar) ->
        py.truthy (base.success ar) = true ->
        py.getitem (base.data ar) "url" = Ok url ->
        run net tr1 (base.download self url) = (tr2, Returned content) ->
        exists d, base.data ar = PDict d
                  /\ res = (tr2, Returned (content, metadata_of d))).
Proof.
  cbn zeta. rewrite download_file_run.
  destruct (run_get_download_url net self app_id ver fid tc []) as [c Hc].
  rewrite Hc.
  split; [|split].
  - destruct (decoded (net [] c)) as [ar|e]; [|cbn; repeat constructor].
    destruct (negb (py.truthy (base.success ar)) || py.is_none (base.data ar));
      [cbn; repeat constructor|].
    destruct (base.data ar) as [ | | | | | |d]; try solve [cbn; repeat constructor].
    destruct (d !! "url") as [url|]; [|cbn; repeat constructor].
    rewrite run_download.
    destruct (net _ (requests.Get url)) as [r|e];
      [destruct (_ && _)|]; cbn; repeat constructor.
  - intros expected actual.
    destruct (decoded (net [] c)) as [ar|e] eqn:Hdec.
    2: { cbn. intros [= ->]. exact (decoded_not_value_error _ _ Hdec). }
    destruct (negb (py.truthy (base.success ar)) || py.is_none (base.data ar));
      [cbn; discriminate|].
    destruct (base.data ar) as [ | | | | | |d]; try solve [cbn; discriminate].
    destruct (d !! "url") as [url|]; [|cbn; discriminate].
    rewrite run_download.
    destruct (net _ (requests.Get url)) as [r|e];
      [destruct (_ && _)|]; cbn; discriminate.
  - intros tr1 ar url tr2 content [= <- ->] Hs Hu Hdl.
    rewrite Hs. cbn [negb orb].
    destruct (base.data ar) as [ | | | | | |d]; try discriminate Hu.
    cbn in Hu. destruct (d !! "url") as [u|]; [|discriminate Hu].
    injection Hu as ->. cbn [py.is_none List.app] in Hdl |- *. rewrite Hdl. cbv zeta. cbn [andb].
    eexists. split; reflexivity.
Qed.

Lemma download_unverified_never_hashes_witness :
  exists d,
    (run scenario.tampered []
       (customer.download_file scenario.client "app" "1.0.0" None false false)).2
    = Returned (scenario.file_content, metadata_of d).
Proof.
  edestruct (proj2 (proj2 (download_unverified_never_hashes scenario.tampered
               scenario.client "app" "1.0.0" None false)))
    as (d & _ & Hres).
  - vm_compute. reflexivity.
  - vm_compute. reflexivity.
  - vm_compute. reflexivity.
  - vm_compute. reflexivity.
  - exists d. rewrite Hres. reflexivity.
Defined.

(** X14: [download_file] contacts storage only after a successful URL
    response, with a [requests.get] of that response's ['url'] that names
    no headers. *)
Theorem download_storage_get_follows_url_response
    (net : network) self app_id ver fid tc verify url rp :
  let tr := (run net [] (customer.download_file self app_id ver fid tc verify)).1 in
  In (EvCall (requests.Get url) rp) tr ->
  exists tr1 ar,
    run net [] (customer.get_download_url self app_id ver fid tc) = (tr1, Returned ar)
    /\ py.truthy (base.success ar) = true
    /\ py.getitem (base.data ar) "url" = Ok url
    /\ rp = net tr1 (requests.Get url)
    /\ requests.sent_headers (requests.Get url) = ∅.
Proof.
  cbn zeta. rewrite download_file_run.
  destruct (run_get_download_url net self app_id ver fid tc []) as [c Hc].
  assert (Hsess : forall u r, EvCall c (net [] c) <> EvCall (requests.Get u) r).
  { unfold customer.get_download_url in Hc. rewrite run_get in Hc.
    cbv zeta in Hc. injection Hc as Hc _.
    intros u r. rewrite <- Hc. discriminate. }
  rewrite Hc.
  destruct (decoded (net [] c)) as [ar|e] eqn:Hdec.
  2: { cbn. intros [H|[]]. destruct (Hsess _ _ H). }
  destruct (negb (py.truthy (base.success ar)) || py.is_none (base.data ar)) eqn:Hg.
  { cbn. intros [H|[]]. destruct (Hsess _ _ H). }
  apply orb_false_iff in Hg. destruct Hg as [Hs _].
  apply negb_false_iff in Hs.
  destruct (base.data ar) as [ | | | | | |d] eqn:Hd;
    try (cbn; intros [H|[]]; destruct (Hsess _ _ H)).
  destruct (d !! "url") as [u|] eqn:Hu;
    [|cbn; intros [H|[]]; destruct (Hsess _ _ H)].
  rewrite run_download.
  assert (Hin : In (EvCall (requests.Get url) rp)
                  (([] ++ [EvCall c (net [] c)]) ++
                   [EvCall (requests.Get u)
                      (net ([] ++ [EvCall c (net [] c)]) (requests.Get u))]) ->
                url = u /\ rp = net ([] ++ [EvCall c (net [] c)]) (requests.Get u)).
  { cbn. intros [H|[H|[]]]; [destruct (Hsess _ _ H)|].
    injection H as -> ->. split; reflexivity. }
  assert (Hdone : url = u /\ rp = net ([] ++ [EvCall c (net [] c)]) (requests.Get u) ->
                  exists tr1 ar0,
                    ([] ++ [EvCall c (net [] c)], Returned ar) = (tr1, Returned ar0)
                    /\ py.truthy (base.success ar0) = true
                    /\ py.getitem (base.data ar0) "url" = Ok url
                    /\ rp = net tr1 (requests.Get url)
                    /\ requests.sent_headers (requests.Get url) = ∅).
  { intros [-> ->]. eexists _, _. split; [reflexivity|].
    rewrite Hd. cbn. rewrite Hu. repeat split. exact Hs. }
  destruct (match net _ (requests.Get u) with
            | requests.Replied r => _
            | requests.Failed e => _
            end) as [content|e]; cbv zeta.
  - destruct (verify && _); cbn [fst]; intros H; apply Hdone, Hin.
    + apply in_app_or in H. destruct H as [H|[H|[]]]; [exact H | discriminate H].
    + exact H.
  - cbn [fst]. intros H. apply Hdone, Hin, H.
Qed.

Lemma download_storage_get_follows_url_response_witness :
  exists tr1 ar,
    run scenario.object_missing []
      (customer.get_download_url scenario.client "app" "1.0.0" None false)
    = (tr1, Returned ar)
    /\ py.truthy (base.success ar) = true
    /\ py.getitem (base.data ar) "url" = Ok (PStr "https://s3.example/get").
Proof.
  destruct (download_storage_get_follows_url_response scenario.object_missing
              scenario.client "app" "1.0.0" None false true
              (PStr "https://s3.example/get")
              (requests.Replied scenario.s3_not_found))
    as (tr1 & ar & Hrun & Hs & Hu & _).
  - vm_compute. right. left. reflexivity.
  - exists tr1, ar. repeat split; assumption.
Defined.

(** X15: what [download_file] returns is the body of the storage response
    and a metadata dict of exactly four keys, each the value the URL
    response's data holds under it, or None. *)
Theorem download_returns_storage_body
    (net : network) self app_id ver fid tc verify tr content metadata :
  run net [] (customer.download_file self app_id ver fid tc verify)
  = (tr, Returned (content, metadata)) ->
  exists tr1 ar d url r,
    run net [] (customer.get_download_url self app_id ver fid tc) = (tr1, Returned ar)
    /\ base.data ar = PDict d
    /\ d !! "url" = Some url
    /\ net tr1 (requests.Get url) = requests.Replied r
    /\ content = requests.content r
    /\ metadata !! "fileName" = Some (default PNone (d !! "fileName"))
    /\ metadata !! "fileSize" = Some (default PNone (d !! "fileSize"))
    /\ metadata !! "checksum" = Some (default PNone (d !! "checksum"))
    /\ metadata !! "expiresAt" = Some (default PNone (d !! "expiresAt"))
    /\ size metadata = 4%nat.
Proof.
  rewrite download_file_run.
  download_cases tr1 ar d url tr2 body; try discriminate.
  match goal with
  | H : run _ _ (base.download _ _) = _ |- _ => rewrite run_download in H;
      injection H as Htr2 Hbody
  end.
  destruct (net tr1 (requests.Get url)) as [r|e] eqn:Hr; [|discriminate Hbody].
  destruct (_ && _) in Hbody; [discriminate Hbody|]. injection Hbody as <-.
  assert (Hmeta : forall md, md = metadata_of d ->
            md !! "fileName" = Some (default PNone (d !! "fileName"))
            /\ md !! "fileSize" = Some (default PNone (d !! "fileSize"))
            /\ md !! "checksum" = Some (default PNone (d !! "checksum"))
            /\ md !! "expiresAt" = Some (default PNone (d !! "expiresAt"))
            /\ size md = 4%nat).
  { intros md ->. unfold metadata_of.
    generalize (default PNone (d !! "fileName")) (default PNone (d !! "fileSize"))
      (default PNone (d !! "checksum")) (default PNone (d !! "expiresAt")).
    intros v1 v2 v3 v4. repeat split; reflexivity. }
  cbv zeta.
  destruct (verify && _).
  - destruct (py.str_ne _ _); [discriminate|].
    intros [= <- <- <-]. exists tr1, ar, d, url, r.
    repeat (split; [first [reflexivity | assumption]|]). apply Hmeta. reflexivity.
  - intros [= <- <- <-]. exists tr1, ar, d, url, r.
    repeat (split; [first [reflexivity | assumption]|]). apply Hmeta. reflexivity.
Qed.

Lemma download_returns_storage_body_witness :
  exists r : requests.Response,
    scenario.file_content = requests.content r.
Proof.
  pose (res := scenario.fetch scenario.empty_checksum).
  pose (metadata := {[ "fileName" := PStr "app.bin"; "fileSize" := PNone;
                       "checksum" := PStr ""; "expiresAt" := PNone ]}
                    : gmap string pyval).
  destruct (download_returns_storage_body scenario.empty_checksum scenario.client
              "app" "1.0.0" None false true res.1 scenario.file_content metadata)
    as (tr1 & ar & d & url & r & _ & _ & _ & _ & Hbody & _).
  - vm_compute. reflexivity.
  - exists r. exact Hbody.
Defined.


(** X17: if a call of [download_file] fails in the transport, that exception
    is the outcome, the failed call is the last event and no digest was
    computed. *)
Theorem download_transport_failure_propagates
    (net : network) self app_id ver fid tc verify c e :
  let res := run net [] (customer.download_file self app_id ver fid tc verify) in
  In (EvCall c (requests.Failed e)) res.1 ->
  res.2 = Raised (RequestException e)
  /\ last res.1 = Some (EvCall c (requests.Failed e))
  /\ Forall (fun ev => is_hash ev = false) res.1.
Proof.
  cbn zeta. rewrite download_file_run.
  destruct (run_get_download_url net self app_id ver fid tc []) as [c1 Hc].
  rewrite Hc. cbn [List.app].
  destruct (decoded (net [] c1)) as [ar|e1] eqn:Hdec.
  2: { cbn. intros [[= <- Hf]|[]].
       rewrite (decoded_failed _ _ Hf) in Hdec. injection Hdec as ->.
       rewrite Hf. repeat split. repeat constructor. }
  assert (Hfirst : EvCall c1 (net [] c1) <> EvCall c (requests.Failed e)).
  { intros [= <- Hf]. rewrite (decoded_failed _ _ Hf) in Hdec. discriminate Hdec. }
  destruct (negb (py.truthy (base.success ar)) || py.is_none (base.data ar)).
  { cbn. intros [H|[]]. contradiction. }
  destruct (base.data ar) as [ | | | | | |d];
    try (cbn; intros [H|[]]; contradiction).
  destruct (d !! "url") as [url|]; [|cbn; intros [H|[]]; contradiction].
  rewrite run_download. cbn [List.app].
  destruct (net [EvCall c1 (net [] c1)] (requests.Get url)) as [r|e2] eqn:Hr.
  - destruct (_ && _); cbv zeta; [|destruct (verify && _)]; cbn;
      intros H; exfalso;
      repeat match goal with
        | H : _ \/ _ |- _ => destruct H as [H|H]
        | H : False |- _ => destruct H
        end; try contradiction; discriminate.
  - cbn. intros [H|[[= <- <-]|[]]]; [contradiction|].
    repeat split. repeat constructor.
Qed.

Lemma download_transport_failure_propagates_witness :
  (scenario.fetch scenario.download_unreachable).2
  = Raised (RequestException "connection refused").
Proof.
  refine (proj1 (download_transport_failure_propagates scenario.download_unreachable
                   scenario.client "app" "1.0.0" None false true
                   (requests.Get (PStr "https://s3.example/get"))
                   "connection refused" _)).
  vm_compute. right. left. reflexivity.
Defined.

(** ** Endpoint callers *)

(** X18: every single-step endpoint of the admin and customer clients is one
    call through the client's session to a URL under [base_url/v1/], whose
    decoded reply is the outcome: none contacts storage or computes a
    digest. *)
Theorem endpoints_make_one_api_call
    (net : network) (self : base.BaseClient) (tr : list event)
    (a b c : string) (o1 o2 : option string) (ob1 ob2 : option bool)
    (tags : option (list string)) (ids : list string) (content : list byte)
    (flag : bool) (n m : Z) :
  Forall (single_api_call net self tr)
    [ admin.create_customer self a b o1;
      admin.create_application self a b ids o1 tags;
      admin.upload_small_file self a b c content o1;
      admin.get_large_upload_url self a b c n admin.octet_stream;
      admin.complete_large_upload self (PStr a) b c a n b o1;
      admin.update_version self a b ob1 ob2 o1 o2;
      admin.update_customer self a o1 ob1 o2;
      admin.delete_application self a;
      admin.list_activity self o1 o2 n m;
      admin.list_customers self n m;
      customer.list_applications self o1 tags n m;
      customer.get_application self a;
      customer.list_versions self a o1 flag;
      customer.list_version_files self a b;
      customer.get_download_url self a b o1 flag;
      customer.create_share_link self a b o1 n;
      customer.get_stats self a ].
Proof.
  repeat constructor.
  all: unfold admin.create_customer, admin.create_application,
         admin.upload_small_file, admin.get_large_upload_url,
         admin.complete_large_upload, admin.update_version, admin.update_customer,
         admin.delete_application, admin.list_activity, admin.list_customers,
         customer.list_applications, customer.get_application,
         customer.list_versions, customer.list_version_files,
         customer.get_download_url, customer.create_share_link, customer.get_stats.
  all: unfold base.get, base.post, base.patch, base.delete; cbv zeta.
  all: eexists; split; [|apply run_session].
  all: split; [reflexivity|]; unfold base._url; eexists; reflexivity.
Qed.

(** X19: [update_version] PATCHes a payload holding exactly the fields that
    are not None, with their values: [False] and the empty string are
    sent. *)
Theorem update_version_sends_what_is_given
    (net : network) (self : base.BaseClient) (tr : list event)
    (app_id ver : string) (is_enabled is_active : option bool)
    (release_notes minimum_client_version : option string) :
  exists payload : gmap string pyval,
    let c := requests.SessionPatch (base.session self)
               (base._url self ("/applications/" +:+ app_id +:+ "/versions/" +:+ ver))
               (Some payload) None in
    run net tr (admin.update_version self app_id ver is_enabled is_active
                  release_notes minimum_client_version)
    = (tr ++ [EvCall c (net tr c)], decoded (net tr c))
    /\ payload !! "isEnabled" = PBool <$> is_enabled
    /\ payload !! "isActive" = PBool <$> is_active
    /\ payload !! "releaseNotes" = PStr <$> release_notes
    /\ payload !! "minimumClientVersion" = PStr <$> minimum_client_version
    /\ size payload
       = (length (option_list is_enabled) + length (option_list is_active)
          + length (option_list release_notes)
          + length (option_list minimum_client_version))%nat.
Proof.
  unfold admin.update_version, base.patch. cbv zeta.
  eexists. cbv zeta. split; [apply run_session|].
  destruct is_enabled, is_active, release_notes, minimum_client_version;
    repeat split; reflexivity.
Qed.

Lemma append_assoc (s t u : string) : (s +:+ t) +:+ u = s +:+ t +:+ u.
Proof.
  induction s as [|ch s IH]; [reflexivity|].
  change (String ch ((s +:+ t) +:+ u) = String ch (s +:+ t +:+ u)).
  rewrite IH. reflexivity.
Qed.

(** X20: [list_applications] joins the tags with commas without escaping:
    a tag containing a comma sends the same request as the two tags it
    splits into. *)
Theorem tags_are_joined_unescaped (self : base.BaseClient)
    (search : option string) (page page_size : Z)
    (t1 t2 : string) (rest : list string) :
  customer.list_applications self search (Some ((t1 +:+ "," +:+ t2) :: rest))
    page page_size
  = customer.list_applications self search (Some (t1 :: t2 :: rest)) page page_size.
Proof.
  assert (Hj : py.join "," ((t1 +:+ "," +:+ t2) :: rest)
               = py.join "," (t1 :: t2 :: rest)).
  { destruct rest as [|t3 rest]; cbn [py.join]; [reflexivity|].
    rewrite !append_assoc. reflexivity. }
  unfold customer.list_applications. cbv zeta.
  cbv [py.opt_list_truthy default id]. rewrite Hj. reflexivity.
Qed.

(** ** Inline upload and base64 *)

Example b64encode_rfc4648 :
  map (fun s => base64.b64encode (list_byte_of_string s))
      [""; "f"; "fo"; "foo"; "foob"; "fooba"; "foobar"]
  = [""; "Zg=="; "Zm8="; "Zm9v"; "Zm9vYg=="; "Zm9vYmE="; "Zm9vYmFy"].
Proof. vm_compute. reflexivity. Qed.

Lemma b64_char_sextet (i : Z) :
  0 <= i < 64 ->
  b64_sextet (base64.char i) = i /\ Ascii.eqb (base64.char i) "=" = false.
Proof.
  intros Hi.
  assert (Hall : forallb (fun k => (b64_sextet (base64.char (Z.of_nat k)) =? Z.of_nat k)
                                   && negb (Ascii.eqb (base64.char (Z.of_nat k)) "="))
                   (seq 0 64) = true) by (vm_compute; reflexivity).
  rewrite forallb_forall in Hall.
  specialize (Hall (Z.to_nat i)).
  rewrite Z2Nat.id in Hall by lia.
  assert (Hin : In (Z.to_nat i) (seq 0 64)) by (apply in_seq; lia).
  apply Hall in Hin. apply andb_true_iff in Hin. destruct Hin as [H1 H2].
  apply Z.eqb_eq in H1. apply negb_true_iff in H2. split; assumption.
Qed.

Lemma b64_byte_oct (b : byte) : b64_byte (base64.oct b) = b.
Proof.
  unfold b64_byte, base64.oct. rewrite N2Z.id, Byte.of_to_N. reflexivity.
Qed.

Lemma oct_bounds (b : byte) : 0 <= base64.oct b < 256.
Proof.
  unfold base64.oct. pose proof (Byte.to_N_bounded b). lia.
Qed.

Lemma list_ind3 {A : Type} (P : list A -> Prop) :
  P [] -> (forall a, P [a]) -> (forall a b, P [a; b]) ->
  (forall a b c l, P l -> P (a :: b :: c :: l)) ->
  forall l, P l.
Proof.
  intros H0 H1 H2 H3. fix IH 1.
  intros [|a [|b [|c l]]]; [exact H0 | apply H1 | apply H2 | apply H3, IH].
Qed.

Ltac div_lia := Z.div_mod_to_equations; lia.

Lemma b64_decode_encode (bs : list byte) :
  b64_decode (base64.encode bs) = bs.
Proof.
  induction bs as [|a|a b|a b c rest IH] using list_ind3.
  - reflexivity.
  - pose proof (oct_bounds a) as Ha.
    cbn [base64.encode b64_decode]. cbv zeta.
    set (n := base64.oct a * 65536).
    destruct (b64_char_sextet (n / 262144)) as [E0 _]; [subst n; div_lia|].
    destruct (b64_char_sextet (n / 4096 mod 64)) as [E1 _]; [subst n; div_lia|].
    rewrite E0, E1. cbn [Ascii.eqb Bool.eqb andb].
    replace (b64_sextet "=") with 0 by reflexivity.
    replace (_ / 65536) with (base64.oct a) by (subst n; div_lia).
    rewrite b64_byte_oct. reflexivity.
  - pose proof (oct_bounds a) as Ha. pose proof (oct_bounds b) as Hb.
    cbn [base64.encode b64_decode]. cbv zeta.
    set (n := base64.oct a * 65536 + base64.oct b * 256).
    destruct (b64_char_sextet (n / 262144)) as [E0 _]; [subst n; div_lia|].
    destruct (b64_char_sextet (n / 4096 mod 64)) as [E1 _]; [subst n; div_lia|].
    destruct (b64_char_sextet (n / 64 mod 64)) as [E2 N2]; [subst n; div_lia|].
    rewrite E0, E1, E2, N2. cbn [Ascii.eqb Bool.eqb andb].
    replace (b64_sextet "=") with 0 by reflexivity.
    replace ((_ + 0) / 65536) with (base64.oct a) by (subst n; div_lia).
    replace ((_ + 0) / 256 mod 256) with (base64.oct b) by (subst n; div_lia).
    rewrite !b64_byte_oct. reflexivity.
  - pose proof (oct_bounds a) as Ha. pose proof (oct_bounds b) as Hb.
    pose proof (oct_bounds c) as Hc.
    cbn [base64.encode b64_decode]. cbv zeta.
    set (n := base64.oct a * 65536 + base64.oct b * 256 + base64.oct c).
    destruct (b64_char_sextet (n / 262144)) as [E0 _]; [subst n; div_lia|].
    destruct (b64_char_sextet (n / 4096 mod 64)) as [E1 _]; [subst n; div_lia|].
    destruct (b64_char_sextet (n / 64 mod 64)) as [E2 N2]; [subst n; div_lia|].
    destruct (b64_char_sextet (n mod 64)) as [E3 N3]; [subst n; div_lia|].
    rewrite E0, E1, E2, E3, N2, N3, IH.
    replace (_ / 65536) with (base64.oct a) by (subst n; div_lia).
    replace (_ / 256 mod 256) with (base64.oct b) by (subst n; div_lia).
    replace (_ mod 256) with (base64.oct c) by (subst n; div_lia).
    rewrite !b64_byte_oct. reflexivity.
Qed.

Lemma b64encode_inj (c1 c2 : list byte) :
  base64.b64encode c1 = base64.b64encode c2 -> c1 = c2.
Proof.
  unfold base64.b64encode. intros H.
  apply (f_equal list_ascii_of_string) in H.
  rewrite !list_ascii_of_string_of_list_ascii in H.
  rewrite <- (b64_decode_encode c1), <- (b64_decode_encode c2), H. reflexivity.
Qed.

(** X21: [upload_small_file] is one POST to [/management/upload] whose
    ['fileContent'] is the base64 text of the content; that text decodes
    back to the content, so different contents give different requests. *)
Theorem upload_small_file_is_lossless
    (net : network) (self : base.BaseClient) (tr : list event)
    (app_id ver fn : string) (c1 c2 : list byte) (rn : option string) :
  c1 <> c2 ->
  (run net tr (admin.upload_small_file self app_id ver fn c1 rn)).1
  <> (run net tr (admin.upload_small_file self app_id ver fn c2 rn)).1
  /\ forall content,
       exists payload : gmap string pyval,
         let c := requests.SessionPost (base.session self)
                    (base._url self "/management/upload") (Some payload) None in
         (run net tr (admin.upload_small_file self app_id ver fn content rn)).1
         = tr ++ [EvCall c (net tr c)]
         /\ payload !! "fileContent" = Some (PStr (base64.b64encode content))
         /\ b64_decode (list_ascii_of_string (base64.b64encode content)) = content.
Proof.
  intros Hne.
  assert (Hrun : forall content,
            exists payload : gmap string pyval,
              let c := requests.SessionPost (base.session self)
                         (base._url self "/management/upload") (Some payload) None in
              (run net tr (admin.upload_small_file self app_id ver fn content rn)).1
              = tr ++ [EvCall c (net tr c)]
              /\ payload !! "fileContent" = Some (PStr (base64.b64encode content))
              /\ b64_decode (list_ascii_of_string (base64.b64encode content)) = content).
  { intros content. unfold admin.upload_small_file. cbv zeta.
    eexists. rewrite run_post. cbv zeta. cbn [fst]. split; [reflexivity|]. split.
    - generalize (base64.b64encode content). intros enc.
      destruct (py.opt_truthy rn); reflexivity.
    - unfold base64.b64encode. rewrite list_ascii_of_string_of_list_ascii.
      apply b64_decode_encode. }
  split; [|exact Hrun].
  destruct (Hrun c1) as (p1 & -> & Hp1 & _).
  destruct (Hrun c2) as (p2 & -> & Hp2 & _).
  intros H. apply app_inv_head in H. injection H as H _.
  rewrite H in Hp1. rewrite Hp1 in Hp2. injection Hp2 as Hp2.
  apply Hne, b64encode_inj, Hp2.
Qed.

Lemma upload_small_file_is_lossless_witness :
  (run scenario.refused []
     (admin.upload_small_file scenario.client "app" "1.0.0" "app.bin"
        (scenario.body_bytes "abc") None)).1
  <> (run scenario.refused []
        (admin.upload_small_file scenario.client "app" "1.0.0" "app.bin"
           (scenario.body_bytes "abd") None)).1
  /\ base64.b64encode (scenario.body_bytes "abc") = "YWJj".
Proof.
  split.
  - refine (proj1 (upload_small_file_is_lossless scenario.refused scenario.client []
                     "app" "1.0.0" "app.bin" (scenario.body_bytes "abc")
                     (scenario.body_bytes "abd") None _)).
    discriminate.
  - vm_compute. reflexivity.
Defined.

(** X22: ids go into the path as they are: the URL of an application
    determines its id, and an id with a path suffix reaches another
    endpoint's URL. *)
Theorem ids_are_interpolated_verbatim (self : base.BaseClient) (a b : string) :
  (base._url self ("/applications/" +:+ a) = base._url self ("/applications/" +:+ b)
   -> a = b)
  /\ customer.get_application self (a +:+ "/stats") = customer.get_stats self a
  /\ customer.get_application self (a +:+ "/versions/" +:+ b +:+ "/files")
     = customer.list_version_files self a b
  /\ customer.get_application self (a +:+ "/versions")
     = customer.list_versions self a None false.
Proof.
  split; [|repeat split].
  intros H. unfold base._url in H.
  do 3 apply append_inj_l in H. exact H.
Qed.

Lemma ids_are_interpolated_verbatim_witness :
  customer.get_application scenario.client "app/stats"
  = customer.get_stats scenario.client "app".
Proof.
  exact (proj1 (proj2 (ids_are_interpolated_verbatim scenario.client "app" "lib"))).
Defined.

(** X23: [list_applications], [list_activity] and [list_customers] always
    send the given [page] and [pageSize], whichever filters are set. *)
Theorem list_endpoints_always_paginate
    (net : network) (self : base.BaseClient) (tr : list event)
    (search activity_type app_id : option string) (tags : option (list string))
    (page page_size : Z) :
  Forall (fun pu : prog base.ApiResponse * string =>
            exists params : gmap string pyval,
              let c := requests.SessionGet (base.session self)
                         (base._url self pu.2) (Some params) None in
              run net tr pu.1 = (tr ++ [EvCall c (net tr c)], decoded (net tr c))
              /\ params !! "page" = Some (PInt page)
              /\ params !! "pageSize" = Some (PInt page_size))
    [ (customer.list_applications self search tags page page_size, "/applications");
      (admin.list_activity self activity_type app_id page page_size, "/activity");
      (admin.list_customers self page page_size, "/management/customers") ].
Proof.
  repeat constructor; cbn [fst snd];
    unfold customer.list_applications, admin.list_activity, admin.list_customers;
    cbv zeta; eexists; rewrite run_get; cbv zeta; (split; [reflexivity|]).
  - destruct (py.opt_truthy search), (py.opt_list_truthy tags); split; reflexivity.
  - destruct (py.opt_truthy activity_type), (py.opt_truthy app_id); split; reflexivity.
  - split; reflexivity.
Qed.
